(** * Server actions of the invoice dashboard

    A shallow embedding of [app/lib/actions.ts]: the form schemas
    [FormSchema] and [RegisterFormSchema], and the five server actions
    [createInvoice], [updateInvoice], [deleteInvoice], [authenticate] and
    [register].

    The actions are straight-line asynchronous functions; every [await] is
    sequenced, so an action is a function from the world it starts in to
    its completion (a returned value or a thrown exception), the world it
    leaves behind and the effects it performed, in order.  Exceptions keep
    the state reached when they are thrown, as in JavaScript. *)

From Stdlib Require Import ZArith List String Ascii Bool Lia.
From Stdlib Require Import Floats.
Import ListNotations.

Set Implicit Arguments.

Local Open Scope string_scope.

(** ** JavaScript values used by the actions *)

(** Strings are sequences of code units, here the code units below 256;
    [String.length] is the [.length] of the source. Numbers are IEEE 754
    binary64 values ([float]), and [*] on them is [PrimFloat.mul]. *)
Module Js.

Definition number := float.

Definition chars (s : string) : list ascii := list_ascii_of_string s.

(** White space and line terminators of code [<= 255] removed by the
    trimming step of [StringToNumber]. *)
Definition isWhiteSpace (c : ascii) : bool :=
  let n := nat_of_ascii c in
  ((9 <=? n)%nat && (n <=? 13)%nat || (n =? 32)%nat || (n =? 160)%nat).

Fixpoint trimStart (s : list ascii) : list ascii :=
  match s with
  | c :: r => if isWhiteSpace c then trimStart r else s
  | [] => []
  end.

Definition trim (s : list ascii) : list ascii :=
  rev (trimStart (rev (trimStart s))).

(** The value of a digit in a radix up to 16, [None] for another
    character. *)
Definition digitValue (radix : Z) (c : ascii) : option Z :=
  let n := Z.of_nat (nat_of_ascii c) in
  let v :=
    if (48 <=? n)%Z && (n <=? 57)%Z then (n - 48)%Z
    else if (97 <=? n)%Z && (n <=? 102)%Z then (n - 87)%Z
    else if (65 <=? n)%Z && (n <=? 70)%Z then (n - 55)%Z
    else 16%Z in
  if (v <? radix)%Z then Some v else None.

(** The longest prefix of digits: its value on top of [acc], how many
    digits were read, and the rest. *)
Fixpoint readDigits (radix : Z) (acc : Z) (count : nat) (s : list ascii)
  : Z * nat * list ascii :=
  match s with
  | c :: r =>
      match digitValue radix c with
      | Some v => readDigits radix (acc * radix + v)%Z (S count) r
      | None => (acc, count, s)
      end
  | [] => (acc, count, [])
  end.

(** [m * 10^e] rounded to the nearest binary64 value, ties to even. *)
Definition roundDecimal (neg : bool) (m e : Z) : number :=
  match m with
  | Zpos p =>
      SF2Prim
        match e with
        | Zneg k =>
            SFdiv prec emax (S754_finite neg p 0)
              (S754_finite false (Pos.pow 10 k) 0)
        | _ => binary_normalize prec emax (if neg then - (m * 10 ^ e) else m * 10 ^ e)%Z 0 neg
        end
  | _ => if neg then neg_zero else zero
  end.

(** An optional [+] or [-]: whether it was a minus, and the rest. *)
Definition readSign (s : list ascii) : bool * list ascii :=
  match s with
  | "+"%char :: r => (false, r)
  | "-"%char :: r => (true, r)
  | _ => (false, s)
  end.

(** The exponent part [e], [e+] or [e-] followed by at least one digit;
    [None] when what follows the mantissa is anything else. An absent
    exponent part is the exponent 0. *)
Definition readExponent (s : list ascii) : option Z :=
  match s with
  | [] => Some 0%Z
  | c :: r =>
      if (Ascii.eqb c "e" || Ascii.eqb c "E")%char then
        let '(neg, r1) := readSign r in
        match readDigits 10 0 0%nat r1 with
        | (_, O, _) => None
        | (v, _, []) => Some (if neg then - v else v)%Z
        | _ => None
        end
      else None
  end.

(** [StrUnsignedDecimalLiteral]: [Infinity], or digits with an optional
    fraction and exponent, at least one digit in the mantissa. *)
Definition readUnsignedDecimal (neg : bool) (s : list ascii) : number :=
  if list_eq_dec ascii_dec s (chars "Infinity")
  then (if neg then neg_infinity else infinity)
  else
    let '(i, ni, r1) := readDigits 10 0 0%nat s in
    let '(m, nf, r2) :=
      match r1 with
      | "."%char :: r => readDigits 10 i 0%nat r
      | _ => (i, O, r1)
      end in
    match (ni + nf)%nat, readExponent r2 with
    | S _, Some e => roundDecimal neg m (e - Z.of_nat nf)%Z
    | _, _ => nan
    end.

(** [0x], [0o] and [0b] literals: the radix and the digits, when the
    string starts with such a prefix. *)
Definition readRadixPrefix (s : list ascii) : option (Z * list ascii) :=
  match s with
  | "0"%char :: c :: r =>
      if (Ascii.eqb c "x" || Ascii.eqb c "X")%char then Some (16%Z, r)
      else if (Ascii.eqb c "o" || Ascii.eqb c "O")%char then Some (8%Z, r)
      else if (Ascii.eqb c "b" || Ascii.eqb c "B")%char then Some (2%Z, r)
      else None
  | _ => None
  end.

(** [StringToNumber]: the empty or blank string is [+0], a string that
    is no numeric literal is [NaN]. *)
Definition StringToNumber (str : string) : number :=
  match trim (chars str) with
  | [] => zero
  | s =>
      match readRadixPrefix s with
      | Some (radix, r) =>
          match readDigits radix 0 0%nat r with
          | (v, S _, []) => roundDecimal false v 0%Z
          | _ => nan
          end
      | None => let '(neg, r) := readSign s in readUnsignedDecimal neg r
      end
  end.

End Js.

(** ** [Date]: the ISO rendering of a time value *)

(** A time value is a count of milliseconds since the epoch, in UTC. *)
Module JsDate.

Definition msPerDay : Z := 86400000.

(** [width] decimal digits of [v], the most significant first, padded
    with zeros. *)
Fixpoint fixedDigits (width : nat) (v : Z) : string :=
  match width with
  | O => ""
  | S w =>
      fixedDigits w (v / 10)
      ++ String (ascii_of_nat (48 + Z.to_nat (v mod 10))) ""
  end.

(** Year, month (1 to 12) and day of the month of a day number in the
    proleptic Gregorian calendar, day 0 being 1970-01-01. *)
Definition civilFromDays (day : Z) : Z * Z * Z :=
  let z := (day + 719468)%Z in
  let era := (z / 146097)%Z in
  let doe := (z - era * 146097)%Z in
  let yoe := ((doe - doe / 1460 + doe / 36524 - doe / 146096) / 365)%Z in
  let doy := (doe - (365 * yoe + yoe / 4 - yoe / 100))%Z in
  let mp := ((5 * doy + 2) / 153)%Z in
  let d := (doy - (153 * mp + 2) / 5 + 1)%Z in
  let m := (if mp <? 10 then mp + 3 else mp - 9)%Z in
  ((yoe + era * 400 + (if m <=? 2 then 1 else 0))%Z, m, d).

(** Four digits for the years 0 to 9999, a sign and six digits for the
    others. *)
Definition yearString (y : Z) : string :=
  if ((0 <=? y) && (y <=? 9999))%Z then fixedDigits 4 y
  else (if (y <? 0)%Z then "-" else "+") ++ fixedDigits 6 (Z.abs y).

(** The calendar date [YYYY-MM-DD] of the UTC day a time value falls in. *)
Definition isoDate (t : Z) : string :=
  let '(y, m, d) := civilFromDays (t / msPerDay) in
  yearString y ++ "-" ++ fixedDigits 2 m ++ "-" ++ fixedDigits 2 d.

(** The time of day [HH:mm:ss.sss]. *)
Definition isoTime (t : Z) : string :=
  let ms := (t mod msPerDay)%Z in
  fixedDigits 2 (ms / 3600000) ++ ":" ++ fixedDigits 2 (ms / 60000 mod 60)
  ++ ":" ++ fixedDigits 2 (ms / 1000 mod 60) ++ "." ++ fixedDigits 3 (ms mod 1000).

Definition toISOString (t : Z) : string :=
  isoDate t ++ "T" ++ isoTime t ++ "Z".

End JsDate.

(** [String.prototype.split] with a separator of one code unit. *)
Module JsString.

Fixpoint splitAux (sep : ascii) (cur : string) (s : string) : list string :=
  match s with
  | EmptyString => [cur]
  | String c r =>
      if Ascii.eqb c sep then cur :: splitAux sep "" r
      else splitAux sep (cur ++ String c "") r
  end.

Definition split (sep : ascii) (s : string) : list string :=
  splitAux sep "" s.

End JsString.

(** ** Form data *)

(** An entry of a submitted form is a string or a file; [get] answers the
    first entry of a name, or [null]. *)
Inductive JsValue :=
| JsNull
| JsString (s : string)
| JsFile (filename : string).

Definition FormData := list (string * JsValue).

Fixpoint FormData_get (name : string) (formData : FormData) : JsValue :=
  match formData with
  | [] => JsNull
  | (k, v) :: rest => if String.eqb k name then v else FormData_get name rest
  end.

(** [Number(v)]: [null] is [+0], a string is read as a numeric literal, an
    object that is no number ([File]) is [NaN]. *)
Definition Number (v : JsValue) : Js.number :=
  match v with
  | JsNull => zero
  | JsString s => Js.StringToNumber s
  | JsFile _ => nan
  end.

(** ** The validation library *)

(** The part of zod (version 3) the schemas use: a schema checks the type
    of a value, with one issue when it is wrong, and then runs all its
    checks, each adding an issue of its own. *)
Module Zod.

Record ZodIssue := mkIssue { code : string; path : string; message : string }.

Inductive SafeParseReturnType (A : Type) :=
| success (data : A)
| failure (error : list ZodIssue).
Arguments success {A} data.
Arguments failure {A} error.

(** An issue before the object schema gives it its path. *)
Definition RawIssue := (string * string)%type.

Record ZodType (A : Type) := mkType {
  typed : JsValue -> A + RawIssue;
  checks : list (A -> option RawIssue)
}.

Definition parsedType (v : JsValue) : string :=
  match v with
  | JsNull => "null"
  | JsString _ => "string"
  | JsFile _ => "object"
  end.

(** The message of an [invalid_type] issue: the schema's
    [invalid_type_error] when it has one, the default otherwise. *)
Definition invalidType (invalid_type_error : option string)
    (expected received : string) : RawIssue :=
  ("invalid_type",
   match invalid_type_error with
   | Some m => m
   | None => "Expected " ++ expected ++ ", received " ++ received
   end).

(** [z.string()] *)
Definition string_ (invalid_type_error : option string) : ZodType string :=
  {| typed := fun v =>
       match v with
       | JsString s => inl s
       | _ => inr (invalidType invalid_type_error "string" (parsedType v))
       end;
     checks := [] |}.

Definition addCheck {A} (t : ZodType A) (c : A -> option RawIssue) : ZodType A :=
  {| typed := typed t; checks := (checks t ++ [c])%list |}.

(** [.min(n, { message })] of a string schema. *)
Definition min (n : nat) (msg : string) (t : ZodType string) : ZodType string :=
  addCheck t (fun s => if (String.length s <? n)%nat then Some ("too_small", msg) else None).

Definition isLetter (c : ascii) : bool :=
  let n := nat_of_ascii c in
  ((65 <=? n)%nat && (n <=? 90)%nat) || ((97 <=? n)%nat && (n <=? 122)%nat).

Definition isAlnum (c : ascii) : bool :=
  let n := nat_of_ascii c in
  isLetter c || ((48 <=? n)%nat && (n <=? 57)%nat).

(** [[A-Z0-9_+-]], letters of both cases. *)
Definition isLocalEnd (c : ascii) : bool :=
  isAlnum c || Ascii.eqb c "_" || Ascii.eqb c "+" || Ascii.eqb c "-".

(** [[A-Z0-9_'+\-\.]], letters of both cases. *)
Definition isLocalChar (c : ascii) : bool :=
  isLocalEnd c || Ascii.eqb c "'" || Ascii.eqb c ".".

Fixpoint hasDoubleDot (s : list ascii) : bool :=
  match s with
  | "."%char :: (("."%char :: _) as r) => true
  | _ :: r => hasDoubleDot r
  | [] => false
  end.

(** [[A-Z0-9][A-Z0-9\-]*] *)
Definition isDomainLabel (l : list ascii) : bool :=
  match l with
  | c :: r => isAlnum c && forallb (fun x => isAlnum x || Ascii.eqb x "-") r
  | [] => false
  end.

(** [([A-Z0-9][A-Z0-9\-]*\.)+[A-Z]{2,}] on the labels between the dots. *)
Fixpoint isDomain (first : bool) (labels : list (list ascii)) : bool :=
  match labels with
  | [] => false
  | [tld] => negb first && forallb isLetter tld && (2 <=? List.length tld)%nat
  | l :: rest => isDomainLabel l && isDomain false rest
  end.

(** The address pattern of the library (3.22 and later), without regard
    to case: a local part of characters [A-Z0-9_'+-.] that ends in one
    of [A-Z0-9_+-], does not start with a dot and has no two dots in a
    row; one [@]; one or more labels, each followed by a dot; and a last
    label of two letters or more. *)
Definition emailRegex (s : string) : bool :=
  match JsString.split "@" s with
  | [loc; dom] =>
      let l := Js.chars loc in
      match rev l with
      | last :: _ =>
          isLocalEnd last && forallb isLocalChar l
          && negb (match l with "."%char :: _ => true | _ => false end)
          && negb (hasDoubleDot l)
          && isDomain true (map Js.chars (JsString.split "." dom))
      | [] => false
      end
  | _ => false
  end.

(** [.email({ message })] *)
Definition email (msg : string) (t : ZodType string) : ZodType string :=
  addCheck t (fun s => if emailRegex s then None else Some ("invalid_string", msg)).

(** [z.coerce.number()]: the value goes through [Number] first; [NaN] is
    no number. *)
Definition coerce_number : ZodType Js.number :=
  {| typed := fun v =>
       let n := Number v in
       if is_nan n then inr (invalidType None "number" "nan") else inl n;
     checks := [] |}.

(** [.gt(value, { message })] of a number schema: the issue is raised
    when [data <= value]. *)
Definition gt (value : Js.number) (msg : string) (t : ZodType Js.number)
  : ZodType Js.number :=
  addCheck t (fun n => if (n <=? value)%float then Some ("too_small", msg) else None).

Fixpoint joinValues (values : list string) : string :=
  match values with
  | [] => ""
  | [v] => "'" ++ v ++ "'"
  | v :: rest => "'" ++ v ++ "' | " ++ joinValues rest
  end.

(** [z.enum(values, { invalid_type_error })] *)
Definition enum (values : list string) (invalid_type_error : option string)
  : ZodType string :=
  {| typed := fun v =>
       match v with
       | JsString s =>
           if existsb (String.eqb s) values then inl s
           else inr ("invalid_enum_value",
                     "Invalid enum value. Expected " ++ joinValues values
                     ++ ", received '" ++ s ++ "'")
       | _ => inr (invalidType invalid_type_error (joinValues values) (parsedType v))
       end;
     checks := [] |}.

(** The issues of every failed check, in the order of the checks. *)
Fixpoint runChecks {A} (cs : list (A -> option RawIssue)) (a : A) : list RawIssue :=
  match cs with
  | [] => []
  | c :: rest =>
      match c a with
      | Some i => i :: runChecks rest a
      | None => runChecks rest a
      end
  end.

(** Parsing one value: the data when there is no issue. *)
Definition parse {A} (t : ZodType A) (v : JsValue) : A + list RawIssue :=
  match typed t v with
  | inr i => inr [i]
  | inl a =>
      match runChecks (checks t) a with
      | [] => inl a
      | issues => inr issues
      end
  end.

(** Parsing the property [key] of an object: the issues carry the key
    as their path. *)
Definition parseKey {A} (key : string) (t : ZodType A) (v : JsValue)
  : A + list ZodIssue :=
  match parse t v with
  | inl a => inl a
  | inr issues => inr (map (fun i => mkIssue (fst i) key (snd i)) issues)
  end.

Definition issuesOf {A} (r : A + list ZodIssue) : list ZodIssue :=
  match r with
  | inl _ => []
  | inr l => l
  end.

(** [error.flatten().fieldErrors[key]]: the messages of the issues of
    that path; the key is absent when there is none. *)
Definition fieldErrors (key : string) (error : list ZodIssue)
  : option (list string) :=
  match filter (fun i => String.eqb (path i) key) error with
  | [] => None
  | l => Some (map message l)
  end.

End Zod.

(** ** The database *)

(** The tables [invoices] and [users], and the five statements the
    actions send. A row gets its [id] from the table's default, the
    [serial]-th identifier the server generates. *)
Module Invoices.
Record Row := mkRow {
  id : string;
  customer_id : string;
  amount : Js.number;
  status : string;
  date : string
}.
End Invoices.

Module Users.
Record Row := mkRow {
  id : string;
  name : string;
  email : string;
  password : string
}.
End Users.

Module Db.

Record t := mk {
  invoices : list Invoices.Row;
  users : list Users.Row;
  serial : nat
}.

Inductive Statement :=
| InsertInvoice (customerId : string) (amountInCents : Js.number)
    (status date : string)
| UpdateInvoice (customerId : string) (amountInCents : Js.number)
    (status id : string)
| DeleteInvoice (id : string)
| SelectUserId (email : string)
| InsertUser (name email hashedPassword : string).

(** The rows a statement answers (the [id] column of the [SELECT],
    nothing for the others) and the database after it. An [UPDATE] or a
    [DELETE] that matches no row changes nothing. *)
Definition exec (uuid : nat -> string) (q : Statement) (d : t)
  : list string * t :=
  match q with
  | InsertInvoice c a s dt =>
      ([], mk (invoices d ++ [Invoices.mkRow (uuid (serial d)) c a s dt])%list
              (users d) (S (serial d)))
  | UpdateInvoice c a s i =>
      ([], mk (map (fun r =>
                      if String.eqb (Invoices.id r) i
                      then Invoices.mkRow (Invoices.id r) c a s (Invoices.date r)
                      else r) (invoices d))
              (users d) (serial d))
  | DeleteInvoice i =>
      ([], mk (filter (fun r => negb (String.eqb (Invoices.id r) i)) (invoices d))
              (users d) (serial d))
  | SelectUserId e =>
      (map Users.id (filter (fun u => String.eqb (Users.email u) e) (users d)), d)
  | InsertUser n e p =>
      ([], mk (invoices d) (users d ++ [Users.mkRow (uuid (serial d)) n e p])%list
              (S (serial d)))
  end.

End Db.

(** ** Worlds, effects and actions *)

(** What an action can throw and catch. [AuthError] stands for the
    authentication library's error class and its subclasses, with their
    [type]; [RedirectError] is the control-flow error [redirect] throws. *)
Inductive JsError :=
| PostgresError (message : string)
| AuthError (type : string)
| RedirectError (url : string)
| OtherError (message : string).

(** The world an action runs in: the database, and what the environment
    will answer. [sqlOutcomes] gives the outcome of the statements to come,
    [Some e] for a statement the client rejects with the error [e];
    statements beyond the list succeed. [bcrypt password rounds] is the
    digest [bcryptjs.hash] computes with the salt it draws, and
    [signInOutcome] is the error [signIn] throws, if any. *)
Record World := mkWorld {
  database : Db.t;
  sqlOutcomes : list (option JsError);
  now : Z;
  uuid_generate_v4 : nat -> string;
  bcrypt : string -> nat -> string;
  signInOutcome : option JsError
}.

Inductive Effect :=
| Sql (q : Db.Statement)
| RevalidatePath (path : string)
| Redirect (url : string)
| ConsoleLog (e : JsError)
| ConsoleError (label : string) (e : JsError)
| BcryptHash (password : string) (rounds : nat)
| SignIn (provider : string) (formData : FormData).

Inductive Completion (A : Type) :=
| Normal (a : A)
| Throw (e : JsError).
Arguments Normal {A} a.
Arguments Throw {A} e.

(** An action maps the world to its completion, the world it leaves and
    the effects it performed, the first one first. *)
Definition Action (A : Type) := World -> Completion A * World * list Effect.

Definition ret {A} (a : A) : Action A := fun w => (Normal a, w, []).

Definition throw {A} (e : JsError) : Action A := fun w => (Throw e, w, []).

Definition bind {A B} (c : Action A) (k : A -> Action B) : Action B :=
  fun w =>
    match c w with
    | (Normal a, w1, t1) => let '(r, w2, t2) := k a w1 in (r, w2, (t1 ++ t2)%list)
    | (Throw e, w1, t1) => (Throw e, w1, t1)
    end.

(** [try { c } catch (error) { handler }] *)
Definition tryCatch {A} (c : Action A) (handler : JsError -> Action A) : Action A :=
  fun w =>
    match c w with
    | (Normal a, w1, t1) => (Normal a, w1, t1)
    | (Throw e, w1, t1) => let '(r, w2, t2) := handler e w1 in (r, w2, (t1 ++ t2)%list)
    end.

Declare Scope action_scope.
Delimit Scope action_scope with action.
Notation "x <- c ;; k" := (bind c (fun x => k))
  (at level 61, c at next level, right associativity) : action_scope.
Notation "c ;; k" := (bind c (fun _ => k))
  (at level 61, right associativity) : action_scope.
Local Open Scope action_scope.

Definition emit (e : Effect) : Action unit := fun w => (Normal tt, w, [e]).

(** One statement through the [sql] client. *)
Definition sql (q : Db.Statement) : Action (list string) :=
  fun w =>
    let rest := tl (sqlOutcomes w) in
    match hd None (sqlOutcomes w) with
    | Some e =>
        (Throw e,
         mkWorld (database w) rest (now w) (uuid_generate_v4 w) (bcrypt w)
           (signInOutcome w),
         [Sql q])
    | None =>
        let '(rows, d) := Db.exec (uuid_generate_v4 w) q (database w) in
        (Normal rows,
         mkWorld d rest (now w) (uuid_generate_v4 w) (bcrypt w) (signInOutcome w),
         [Sql q])
    end.

Definition revalidatePath (path : string) : Action unit :=
  emit (RevalidatePath path).

(** [redirect] does not return: it throws its control-flow error. *)
Definition redirect {A} (url : string) : Action A :=
  emit (Redirect url) ;; throw (RedirectError url).

Definition console_log (e : JsError) : Action unit := emit (ConsoleLog e).

Definition console_error (label : string) (e : JsError) : Action unit :=
  emit (ConsoleError label e).

Definition bcryptjs_hash (password : string) (rounds : nat) : Action string :=
  fun w => (Normal (bcrypt w password rounds), w, [BcryptHash password rounds]).

Definition signIn (provider : string) (formData : FormData) : Action unit :=
  fun w =>
    (match signInOutcome w with
     | Some e => Throw e
     | None => Normal tt
     end, w, [SignIn provider formData]).

(** [new Date()]: the time value of the present moment. *)
Definition newDate : Action Z := fun w => (Normal (now w), w, []).

(** ** The schemas *)

Module FormSchema.

Definition id : Zod.ZodType string := Zod.string_ None.

Definition customerId : Zod.ZodType string :=
  Zod.string_ (Some "Please select a customer.").

Definition amount : Zod.ZodType Js.number :=
  Zod.gt zero "Please enter an amount greater than $0." Zod.coerce_number.

Definition status : Zod.ZodType string :=
  Zod.enum ["pending"; "paid"] (Some "Please select an invoice status.").

Definition date : Zod.ZodType string := Zod.string_ None.

(** The object a caller hands to [safeParse], and the validated data. *)
Record Input := mkInput {
  in_customerId : JsValue;
  in_amount : JsValue;
  in_status : JsValue
}.

Record Data := mkData {
  data_customerId : string;
  data_amount : Js.number;
  data_status : string
}.

(** [FormSchema.omit({ id: true, date: true }).safeParse]: the three
    remaining properties are all parsed, and the issues of all of them
    are reported, in the order of the schema. *)
Definition omit_id_date_safeParse (o : Input) : Zod.SafeParseReturnType Data :=
  let c := Zod.parseKey "customerId" customerId (in_customerId o) in
  let a := Zod.parseKey "amount" amount (in_amount o) in
  let s := Zod.parseKey "status" status (in_status o) in
  match c, a, s with
  | inl c', inl a', inl s' => Zod.success (mkData c' a' s')
  | _, _, _ =>
      Zod.failure (Zod.issuesOf c ++ Zod.issuesOf a ++ Zod.issuesOf s)%list
  end.

End FormSchema.

Definition UpdateInvoice := FormSchema.omit_id_date_safeParse.
Definition CreateInvoice := FormSchema.omit_id_date_safeParse.

Module RegisterFormSchema.

Definition name : Zod.ZodType string :=
  Zod.min 1 "Name is required" (Zod.string_ None).

Definition email : Zod.ZodType string :=
  Zod.email "Please enter a valid email address." (Zod.string_ None).

Definition password : Zod.ZodType string :=
  Zod.min 6 "Password must be at least 6 characters." (Zod.string_ None).

Record Input := mkInput {
  in_name : JsValue;
  in_email : JsValue;
  in_password : JsValue
}.

Record Data := mkData {
  data_name : string;
  data_email : string;
  data_password : string
}.

Definition safeParse (o : Input) : Zod.SafeParseReturnType Data :=
  let n := Zod.parseKey "name" name (in_name o) in
  let e := Zod.parseKey "email" email (in_email o) in
  let p := Zod.parseKey "password" password (in_password o) in
  match n, e, p with
  | inl n', inl e', inl p' => Zod.success (mkData n' e' p')
  | _, _, _ =>
      Zod.failure (Zod.issuesOf n ++ Zod.issuesOf e ++ Zod.issuesOf p)%list
  end.

End RegisterFormSchema.

(** ** The actions *)

Record FieldErrors := mkFieldErrors {
  err_customerId : option (list string);
  err_amount : option (list string);
  err_status : option (list string)
}.

Record State := mkState {
  errors : option FieldErrors;
  message : option string
}.

(** [validatedFields.error.flatten().fieldErrors] *)
Definition flatten_fieldErrors (error : list Zod.ZodIssue) : FieldErrors :=
  mkFieldErrors (Zod.fieldErrors "customerId" error)
    (Zod.fieldErrors "amount" error) (Zod.fieldErrors "status" error).

Definition invoiceInput (formData : FormData) : FormSchema.Input :=
  FormSchema.mkInput (FormData_get "customerId" formData)
    (FormData_get "amount" formData) (FormData_get "status" formData).

(** In the three actions below a [try] statement can leave its function
    with [return]: the statement yields [Some r] for a returned value [r]
    and [None] when control reaches its end, after which the function
    goes on. *)
Definition createInvoice (prevState : State) (formData : FormData) : Action State :=
  match CreateInvoice (invoiceInput formData) with
  | Zod.failure error =>
      ret (mkState (Some (flatten_fieldErrors error))
             (Some "Missing Fields. Failed to create Invoice."))
  | Zod.success (FormSchema.mkData customerId amount status) =>
      let amountInCents := (amount * 100)%float in
      t <- newDate ;;
      let date := hd "" (JsString.split "T" (JsDate.toISOString t)) in
      returned <-
        tryCatch
          (sql (Db.InsertInvoice customerId amountInCents status date) ;;
           ret None)
          (fun error =>
             ret (Some (mkState None
                          (Some "Database Error: Failed to Create Invoice.")))) ;;
      match returned with
      | Some state => ret state
      | None =>
          revalidatePath "/dashboard/invoices" ;;
          redirect "/dashboard/invoices"
      end
  end.

Definition updateInvoice (id : string) (prevState : State) (formData : FormData)
  : Action State :=
  match UpdateInvoice (invoiceInput formData) with
  | Zod.failure error =>
      ret (mkState (Some (flatten_fieldErrors error))
             (Some "Missing Fields. Failed to update Invoice."))
  | Zod.success (FormSchema.mkData customerId amount status) =>
      let amountInCents := (amount * 100)%float in
      returned <-
        tryCatch
          (sql (Db.UpdateInvoice customerId amountInCents status id) ;;
           ret None)
          (fun error =>
             ret (Some (mkState None
                          (Some "Database Error: Failed to Update Invoice.")))) ;;
      match returned with
      | Some state => ret state
      | None =>
          revalidatePath "/dashboard/invoices" ;;
          redirect "/dashboard/invoices"
      end
  end.

(** The action returns [undefined] on both paths. *)
Definition deleteInvoice (id : string) : Action unit :=
  tryCatch
    (sql (Db.DeleteInvoice id) ;;
     revalidatePath "/dashboard/invoices")
    (fun error => console_log error).

(** [Some s] is the returned string, [None] is [undefined]. *)
Definition authenticate (prevState : option string) (formData : FormData)
  : Action (option string) :=
  tryCatch
    (signIn "credentials" formData ;;
     ret None)
    (fun error =>
       match error with
       | AuthError type =>
           if String.eqb type "CredentialsSignin"
           then ret (Some "Invalid credentials.")
           else ret (Some "Something went wrong.")
       | _ => throw error
       end).

Definition registerInput (formData : FormData) : RegisterFormSchema.Input :=
  RegisterFormSchema.mkInput (FormData_get "name" formData)
    (FormData_get "email" formData) (FormData_get "password" formData).

Definition register (prevState : option string) (formData : FormData)
  : Action string :=
  match RegisterFormSchema.safeParse (registerInput formData) with
  | Zod.failure _ => ret "Missing Fields. Failed to Register."
  | Zod.success (RegisterFormSchema.mkData name email password) =>
      returned <-
        tryCatch
          (existingUser <- sql (Db.SelectUserId email) ;;
           if (0 <? List.length existingUser)%nat
           then ret (Some "User with this email already exists.")
           else
             hashedPassword <- bcryptjs_hash password 10 ;;
             sql (Db.InsertUser name email hashedPassword) ;;
             ret None)
          (fun error =>
             console_error "Registration Error:" error ;;
             ret (Some "Database Error: Failed to register.")) ;;
      match returned with
      | Some msg => ret msg
      | None => redirect "/login"
      end
  end.

(** ** Observing a run *)

Section Observe.
Context {A : Type}.

Definition completion (r : Completion A * World * list Effect) : Completion A :=
  fst (fst r).

Definition final (r : Completion A * World * list Effect) : World :=
  snd (fst r).

Definition effects (r : Completion A * World * list Effect) : list Effect :=
  snd r.
End Observe.

(** The statements sent to the database, the paths marked stale and the
    targets of the redirects among the effects of a run, in order. *)
Fixpoint statements (t : list Effect) : list Db.Statement :=
  match t with
  | Sql q :: r => q :: statements r
  | _ :: r => statements r
  | [] => []
  end.

Fixpoint revalidations (t : list Effect) : list string :=
  match t with
  | RevalidatePath p :: r => p :: revalidations r
  | _ :: r => revalidations r
  | [] => []
  end.

Fixpoint redirects (t : list Effect) : list string :=
  match t with
  | Redirect u :: r => u :: redirects r
  | _ :: r => redirects r
  | [] => []
  end.

(** Whether a redirect, if there is one among the effects, is the last
    effect and comes after a statement was sent ([sent] tells whether one
    was sent before the effects at hand). *)
Fixpoint redirectClosesRun (sent : bool) (t : list Effect) : bool :=
  match t with
  | [] => true
  | Redirect _ :: r => sent && match r with [] => true | _ :: _ => false end
  | Sql _ :: r => redirectClosesRun true r
  | _ :: r => redirectClosesRun sent r
  end.

(** Whether a string is free of a code unit. *)
Fixpoint lacks (c : ascii) (s : string) : bool :=
  match s with
  | EmptyString => true
  | String x r => negb (Ascii.eqb x c) && lacks c r
  end.

(** The messages reported for a key are those of the issues raised on
    that key. *)
Definition messagesOf {A} (r : A + list Zod.ZodIssue) : option (list string) :=
  match Zod.issuesOf r with
  | [] => None
  | l => Some (map Zod.message l)
  end.

(** The world once the client has answered its next statement. *)
Definition afterStatement (d : Db.t) (w : World) : World :=
  mkWorld d (tl (sqlOutcomes w)) (now w) (uuid_generate_v4 w) (bcrypt w)
    (signInOutcome w).

(** Whether the [users] table holds a row of that address. *)
Definition emailTaken (email : string) (d : Db.t) : bool :=
  existsb (fun u => String.eqb (Users.email u) email) (Db.users d).

(** A world to run the actions in: one registered user, no invoice, a
    database that answers every statement, on 2 November 2026. *)
Definition sampleWorld : World :=
  mkWorld
    (Db.mk [] [Users.mkRow "u-0" "Ann" "ann@example.com" "$2a$10$digest"] 1)
    [] 1793602860123
    (fun n => "id-" ++ JsDate.fixedDigits 4 (Z.of_nat n))
    (fun password rounds =>
       "$2a$" ++ JsDate.fixedDigits 2 (Z.of_nat rounds) ++ "$" ++ password)
    None.

(** The same world with a database that rejects its next statement. *)
Definition failingWorld : World :=
  mkWorld (database sampleWorld) [Some (PostgresError "connection refused")]
    (now sampleWorld)
    (uuid_generate_v4 sampleWorld) (bcrypt sampleWorld) None.

(** The sample world with a [signIn] that throws [e]. *)
Definition signInFails (e : JsError) : World :=
  mkWorld (database sampleWorld) [] (now sampleWorld)
    (uuid_generate_v4 sampleWorld) (bcrypt sampleWorld) (Some e).

Definition noState : State := mkState None None.

Definition validInvoiceForm : FormData :=
  [("customerId", JsString "c1"); ("amount", JsString "10.50");
   ("status", JsString "paid")].

Definition emptyCustomerForm : FormData :=
  [("customerId", JsString ""); ("amount", JsString "10.50");
   ("status", JsString "paid")].

(** Registration forms: an address that is taken, a password of five
    code units, and a fresh address with a password of six. *)
Definition takenForm : FormData :=
  [("name", JsString "Ann"); ("email", JsString "ann@example.com");
   ("password", JsString "secret")].

Definition shortPasswordForm : FormData :=
  [("name", JsString "Bob"); ("email", JsString "bob@example.com");
   ("password", JsString "12345")].

Definition freshForm : FormData :=
  [("name", JsString "Bob"); ("email", JsString "bob@example.com");
   ("password", JsString "123456")].

(** ** Conditions on a form and on the tables *)

(** Whether the amount of a form coerces to a number greater than zero
    ([Infinity] included). *)
Definition positiveAmount (v : JsValue) : bool :=
  negb (is_nan (Number v)) && negb (Number v <=? 0)%float.

(** The two values of [status] the schema admits. *)
Definition isStatus (s : string) : Prop := s = "pending" \/ s = "paid".

(** Whether the [invoices] table has a row of that identifier. *)
Definition hasInvoice (id : string) (d : Db.t) : bool :=
  existsb (fun r => String.eqb (Invoices.id r) id) (Db.invoices d).

(** The rows of [invoices] after an accepted [UPDATE] of the row [id]. *)
Definition updatedRows (c : string) (cents : Js.number) (s id : string)
    (rows : list Invoices.Row) : list Invoices.Row :=
  map (fun r =>
         if String.eqb (Invoices.id r) id
         then Invoices.mkRow (Invoices.id r) c cents s (Invoices.date r)
         else r) rows.

(** A world whose database rejects the second statement it receives. *)
Definition insertFailingWorld : World :=
  mkWorld (database sampleWorld) [None; Some (PostgresError "disk full")]
    (now sampleWorld) (uuid_generate_v4 sampleWorld) (bcrypt sampleWorld) None.

(** The sample world with two invoices in its table. *)
Definition invoicedWorld : World :=
  mkWorld
    (Db.mk [Invoices.mkRow "inv-a" "c1" 2000%float "pending" "2026-10-01";
            Invoices.mkRow "inv-b" "c2" 500%float "paid" "2026-10-02"]
       (Db.users (database sampleWorld)) 1)
    [] (now sampleWorld) (uuid_generate_v4 sampleWorld) (bcrypt sampleWorld) None.

(** A valid invoice form with other values. *)
Definition repricedForm : FormData :=
  [("customerId", JsString "c3"); ("amount", JsString "12.5");
   ("status", JsString "paid")].

(** * Properties *)

(** ** The models of the built-ins on known values *)

Example StringToNumber_decimal :
  map Js.StringToNumber ["10.50"; "0.1"; " 12 "; ""; "-0"; "1e3"; ".5"; "0x1F"]
  = [10.5; 0x1.999999999999ap-4; 12; 0; -0; 1000; 0.5; 31]%float.
Proof. vm_compute. reflexivity. Qed.

Example StringToNumber_not_numeric :
  map (fun s => is_nan (Js.StringToNumber s)) ["abc"; "12px"; "1 2"; "."; "1e"]
  = [true; true; true; true; true].
Proof. vm_compute. reflexivity. Qed.

Example StringToNumber_rounds :
  map Js.StringToNumber ["9007199254740993"; "1e400"; "1e-400"; "5e-324"]
  = [9007199254740992; infinity; 0; 0x0.0000000000001p-1022]%float.
Proof. vm_compute. reflexivity. Qed.

(** The product with 100 is a binary64 product: it is 1050 for 10.5, and
    it is not a whole number for every amount (114.99999999999999 for
    1.15). *)
Example amountInCents_examples :
  (Js.StringToNumber "10.50" * 100 = 1050
   /\ Js.StringToNumber "1.15" * 100 = 0x1.cbfffffffffffp+6)%float.
Proof. split; vm_compute; reflexivity. Qed.

Example toISOString_examples :
  map JsDate.toISOString [0; -1; 951782400000; 1793602860123]%Z
  = ["1970-01-01T00:00:00.000Z"; "1969-12-31T23:59:59.999Z";
     "2000-02-29T00:00:00.000Z"; "2026-11-02T07:01:00.123Z"].
Proof. vm_compute. reflexivity. Qed.

Example emailRegex_examples :
  map Zod.emailRegex
    ["user@nextmail.com"; "a.b@c.de"; "a@b"; ".a@b.co"; "a..b@c.de"; "a@c.d1"]
  = [true; true; false; false; false; false].
Proof. vm_compute. reflexivity. Qed.

(** ** The date stamp *)

Lemma lacks_app c a b : lacks c (a ++ b) = lacks c a && lacks c b.
Proof.
  induction a as [|x a IH]; simpl; [reflexivity|].
  now rewrite IH, andb_assoc.
Qed.

Lemma app_assoc_string (a b c : string) : (a ++ b) ++ c = a ++ b ++ c.
Proof. induction a as [|x a IH]; simpl; [reflexivity | now rewrite IH]. Qed.

(** Splitting stops at the first separator: what comes before it, when
    free of the separator, is the first piece. *)
Lemma splitAux_first sep a : forall cur b,
  lacks sep a = true ->
  JsString.splitAux sep cur (a ++ String sep b)
  = (cur ++ a) :: JsString.splitAux sep "" b.
Proof.
  induction a as [|x a IH]; simpl; intros cur b H.
  - rewrite Ascii.eqb_refl. f_equal.
    induction cur as [|y cur IHc]; simpl; [reflexivity | now f_equal].
  - apply andb_true_iff in H as [Hx Ha].
    apply negb_true_iff in Hx. rewrite Hx, IH by assumption.
    now rewrite app_assoc_string.
Qed.

Lemma split_nonempty sep s : JsString.split sep s <> [].
Proof.
  unfold JsString.split. generalize "". induction s as [|x s IH]; simpl; intros cur.
  - discriminate.
  - destruct (Ascii.eqb x sep); [discriminate | apply IH].
Qed.

Lemma digit_lacks_T (n : nat) :
  (n < 10)%nat -> Ascii.eqb (ascii_of_nat (48 + n)) "T" = false.
Proof.
  intros H.
  do 10 (destruct n as [|n]; [reflexivity|]). lia.
Qed.

Lemma fixedDigits_lacks_T width : forall v,
  lacks "T" (JsDate.fixedDigits width v) = true.
Proof.
  induction width as [|w IH]; intros v; cbn [JsDate.fixedDigits]; [reflexivity|].
  rewrite lacks_app, IH. cbn [lacks andb].
  rewrite digit_lacks_T; [reflexivity|].
  pose proof (Z.mod_pos_bound v 10). lia.
Qed.

Lemma isoDate_lacks_T t : lacks "T" (JsDate.isoDate t) = true.
Proof.
  unfold JsDate.isoDate.
  destruct (JsDate.civilFromDays (t / JsDate.msPerDay)) as [[y m] d].
  unfold JsDate.yearString.
  destruct ((0 <=? y)%Z && (y <=? 9999)%Z); [|destruct (y <? 0)%Z];
    repeat (rewrite lacks_app || rewrite fixedDigits_lacks_T); reflexivity.
Qed.

(** [new Date(t).toISOString().split('T')[0]] is the calendar date of the
    day of [t]. *)
Lemma dateStamp_isoDate t :
  hd "" (JsString.split "T" (JsDate.toISOString t)) = JsDate.isoDate t.
Proof.
  unfold JsString.split, JsDate.toISOString.
  change (JsDate.isoDate t ++ "T" ++ JsDate.isoTime t ++ "Z")
    with (JsDate.isoDate t ++ String "T" (JsDate.isoTime t ++ "Z")).
  rewrite splitAux_first by apply isoDate_lacks_T. reflexivity.
Qed.

(** ** Validation *)

(** The issues of a property carry its key. *)
Lemma parseKey_paths {A} key (t : Zod.ZodType A) v :
  Forall (fun i => Zod.path i = key) (Zod.issuesOf (Zod.parseKey key t v)).
Proof.
  unfold Zod.parseKey. destruct (Zod.parse t v) as [a|l]; simpl; [constructor|].
  induction l; simpl; constructor; auto.
Qed.

Lemma filter_same_path key l :
  Forall (fun i => Zod.path i = key) l ->
  filter (fun i => String.eqb (Zod.path i) key) l = l.
Proof.
  induction 1 as [|i l Hi _ IH]; simpl; [reflexivity|].
  rewrite Hi, String.eqb_refl. now f_equal.
Qed.

Lemma filter_other_path key key' l :
  key <> key' ->
  Forall (fun i => Zod.path i = key) l ->
  filter (fun i => String.eqb (Zod.path i) key') l = [].
Proof.
  intros Hne. induction 1 as [|i l Hi _ IH]; simpl; [reflexivity|].
  rewrite Hi. apply String.eqb_neq in Hne. now rewrite Hne.
Qed.

Section InvoiceIssues.
Variables vc va vs : JsValue.

Let c := Zod.parseKey "customerId" FormSchema.customerId vc.
Let a := Zod.parseKey "amount" FormSchema.amount va.
Let s := Zod.parseKey "status" FormSchema.status vs.
Let all := (Zod.issuesOf c ++ Zod.issuesOf a ++ Zod.issuesOf s)%list.

Lemma flatten_invoice_issues :
  flatten_fieldErrors all = mkFieldErrors (messagesOf c) (messagesOf a) (messagesOf s).
Proof.
  pose proof (parseKey_paths "customerId" FormSchema.customerId vc) as Hc.
  pose proof (parseKey_paths "amount" FormSchema.amount va) as Ha.
  pose proof (parseKey_paths "status" FormSchema.status vs) as Hs.
  fold c in Hc. fold a in Ha. fold s in Hs.
  unfold flatten_fieldErrors, Zod.fieldErrors, messagesOf, all.
  rewrite !filter_app.
  rewrite (filter_same_path Hc), (filter_same_path Ha), (filter_same_path Hs).
  rewrite (filter_other_path (key := "customerId") (key' := "amount") ltac:(discriminate) Hc).
  rewrite (filter_other_path (key := "customerId") (key' := "status") ltac:(discriminate) Hc).
  rewrite (filter_other_path (key := "amount") (key' := "customerId") ltac:(discriminate) Ha).
  rewrite (filter_other_path (key := "amount") (key' := "status") ltac:(discriminate) Ha).
  rewrite (filter_other_path (key := "status") (key' := "customerId") ltac:(discriminate) Hs).
  rewrite (filter_other_path (key := "status") (key' := "amount") ltac:(discriminate) Hs).
  now rewrite !app_nil_r.
Qed.

(** A failed property fails the object, whatever the other two are. *)
Lemma safeParse_failure :
  Zod.issuesOf c <> [] \/ Zod.issuesOf a <> [] \/ Zod.issuesOf s <> [] ->
  FormSchema.omit_id_date_safeParse (FormSchema.mkInput vc va vs)
  = Zod.failure all.
Proof.
  unfold FormSchema.omit_id_date_safeParse, all; cbn [FormSchema.in_customerId
    FormSchema.in_amount FormSchema.in_status]. fold c a s.
  destruct c, a, s; cbn [Zod.issuesOf]; try reflexivity.
  intros [H|[H|H]]; now elim H.
Qed.
End InvoiceIssues.

(** What each property of the invoice form parses to. *)
Lemma parse_customerId v :
  Zod.parseKey "customerId" FormSchema.customerId v
  = match v with
    | JsString s => inl s
    | _ => inr [Zod.mkIssue "invalid_type" "customerId" "Please select a customer."]
    end.
Proof. destruct v; reflexivity. Qed.

Lemma parse_amount v :
  Zod.parseKey "amount" FormSchema.amount v
  = if is_nan (Number v)
    then inr [Zod.mkIssue "invalid_type" "amount" "Expected number, received nan"]
    else if (Number v <=? 0)%float
         then inr [Zod.mkIssue "too_small" "amount"
                     "Please enter an amount greater than $0."]
         else inl (Number v).
Proof.
  unfold Zod.parseKey, Zod.parse, FormSchema.amount, Zod.gt, Zod.addCheck,
    Zod.coerce_number; cbn [Zod.typed Zod.checks app Zod.runChecks].
  destruct (is_nan (Number v)); [reflexivity|].
  cbn [Zod.runChecks]. change zero with 0%float.
  destruct (Number v <=? 0)%float; reflexivity.
Qed.

Lemma parse_status v :
  (exists s, v = JsString s /\ (s = "pending" \/ s = "paid")
             /\ Zod.parseKey "status" FormSchema.status v = inl s)
  \/ (v <> JsString "pending" /\ v <> JsString "paid"
      /\ exists code msg,
           Zod.parseKey "status" FormSchema.status v
           = inr [Zod.mkIssue code "status" msg]).
Proof.
  destruct v as [|s|f].
  - right. repeat split; try discriminate. now eexists _, _.
  - unfold Zod.parseKey, Zod.parse, FormSchema.status, Zod.enum;
      cbn [Zod.typed Zod.checks existsb].
    destruct (String.eqb_spec s "pending") as [->|Hp].
    + left. exists "pending". auto.
    + destruct (String.eqb_spec s "paid") as [->|Hq].
      * left. exists "paid". auto.
      * right. repeat split; try congruence. cbn. now eexists _, _.
  - right. repeat split; try discriminate. now eexists _, _.
Qed.

(** A form with a failed property is answered with the messages of each
    property, and the action neither changes the world nor has an effect:
    no statement is sent. *)
Section Rejection.
Variables (prevState : State) (formData : FormData) (w : World).

Let c := Zod.parseKey "customerId" FormSchema.customerId
           (FormData_get "customerId" formData).
Let a := Zod.parseKey "amount" FormSchema.amount
           (FormData_get "amount" formData).
Let s := Zod.parseKey "status" FormSchema.status
           (FormData_get "status" formData).

Hypothesis failed :
  Zod.issuesOf c <> [] \/ Zod.issuesOf a <> [] \/ Zod.issuesOf s <> [].

Lemma createInvoice_rejects :
  createInvoice prevState formData w
  = (Normal (mkState (Some (mkFieldErrors (messagesOf c) (messagesOf a) (messagesOf s)))
               (Some "Missing Fields. Failed to create Invoice.")), w, []).
Proof.
  unfold createInvoice, CreateInvoice, invoiceInput.
  rewrite safeParse_failure by exact failed.
  now rewrite flatten_invoice_issues.
Qed.

Lemma updateInvoice_rejects id :
  updateInvoice id prevState formData w
  = (Normal (mkState (Some (mkFieldErrors (messagesOf c) (messagesOf a) (messagesOf s)))
               (Some "Missing Fields. Failed to update Invoice.")), w, []).
Proof.
  unfold updateInvoice, UpdateInvoice, invoiceInput.
  rewrite safeParse_failure by exact failed.
  now rewrite flatten_invoice_issues.
Qed.
End Rejection.

(** C2. A form whose amount coerces to no number, or to a number less than
    or equal to zero, is rejected by [createInvoice] and by [updateInvoice]
    with a message on the [amount] field; the world is unchanged and no
    effect happened, so no statement reached the database. *)
Theorem invoice_amount_rejected (id : string) (prevState : State)
    (formData : FormData) (w : World) :
  let v := Number (FormData_get "amount" formData) in
  is_nan v = true \/ (v <=? 0)%float = true ->
  exists fe,
    err_amount fe
    = Some [if is_nan v then "Expected number, received nan"
            else "Please enter an amount greater than $0."]
    /\ createInvoice prevState formData w
       = (Normal (mkState (Some fe) (Some "Missing Fields. Failed to create Invoice.")),
          w, [])
    /\ updateInvoice id prevState formData w
       = (Normal (mkState (Some fe) (Some "Missing Fields. Failed to update Invoice.")),
          w, []).
Proof.
  intros v H.
  assert (Ha : messagesOf (Zod.parseKey "amount" FormSchema.amount
                             (FormData_get "amount" formData))
               = Some [if is_nan v then "Expected number, received nan"
                       else "Please enter an amount greater than $0."]).
  { rewrite parse_amount. fold v.
    destruct (is_nan v); [reflexivity|].
    destruct H as [H|H]; [discriminate|]. now rewrite H. }
  assert (Hne : Zod.issuesOf (Zod.parseKey "amount" FormSchema.amount
                                (FormData_get "amount" formData)) <> []).
  { unfold messagesOf in Ha. intros E. rewrite E in Ha. discriminate. }
  eexists. split; [|split].
  2: apply createInvoice_rejects; auto.
  2: apply updateInvoice_rejects; auto.
  exact Ha.
Qed.

Lemma invoice_amount_rejected_witness :
  (Number (FormData_get "amount" [("customerId", JsString "c1");
                                  ("amount", JsString "-3"); ("status", JsString "paid")])
   <=? 0)%float = true
  /\ exists fe,
       err_amount fe = Some ["Please enter an amount greater than $0."]
       /\ createInvoice noState
            [("customerId", JsString "c1"); ("amount", JsString "-3");
             ("status", JsString "paid")] sampleWorld
          = (Normal (mkState (Some fe) (Some "Missing Fields. Failed to create Invoice.")),
             sampleWorld, [])
       /\ updateInvoice "id-0000" noState
            [("customerId", JsString "c1"); ("amount", JsString "-3");
             ("status", JsString "paid")] sampleWorld
          = (Normal (mkState (Some fe) (Some "Missing Fields. Failed to update Invoice.")),
             sampleWorld, []).
Proof.
  split; [vm_compute; reflexivity|].
  apply (invoice_amount_rejected "id-0000" noState
           [("customerId", JsString "c1"); ("amount", JsString "-3");
            ("status", JsString "paid")] sampleWorld).
  right. vm_compute. reflexivity.
Defined.

(** C3. A form whose status is anything but the string [pending] or the
    string [paid] (another string, a file, or no entry at all) is rejected
    by [createInvoice] and by [updateInvoice] with a message on the
    [status] field; the world is unchanged and no effect happened, so
    nothing is persisted. *)
Theorem invoice_status_rejected (id : string) (prevState : State)
    (formData : FormData) (w : World) :
  FormData_get "status" formData <> JsString "pending" ->
  FormData_get "status" formData <> JsString "paid" ->
  exists fe msg,
    err_status fe = Some [msg]
    /\ createInvoice prevState formData w
       = (Normal (mkState (Some fe) (Some "Missing Fields. Failed to create Invoice.")),
          w, [])
    /\ updateInvoice id prevState formData w
       = (Normal (mkState (Some fe) (Some "Missing Fields. Failed to update Invoice.")),
          w, []).
Proof.
  intros Hp Hq.
  destruct (parse_status (FormData_get "status" formData))
    as [(s & E & [->| ->] & _)|(_ & _ & code & msg & E)]; try contradiction.
  assert (Hne : Zod.issuesOf (Zod.parseKey "status" FormSchema.status
                                (FormData_get "status" formData)) <> [])
    by (rewrite E; discriminate).
  eexists _, msg. split; [|split].
  2: apply createInvoice_rejects; auto.
  2: apply updateInvoice_rejects; auto.
  cbn [err_status]. unfold messagesOf. now rewrite E.
Qed.

Lemma invoice_status_rejected_witness :
  exists fe msg,
    err_status fe = Some [msg]
    /\ createInvoice noState
         [("customerId", JsString "c1"); ("amount", JsString "10.50");
          ("status", JsString "overdue")] sampleWorld
       = (Normal (mkState (Some fe) (Some "Missing Fields. Failed to create Invoice.")),
          sampleWorld, [])
    /\ updateInvoice "id-0000" noState
         [("customerId", JsString "c1"); ("amount", JsString "10.50");
          ("status", JsString "overdue")] sampleWorld
       = (Normal (mkState (Some fe) (Some "Missing Fields. Failed to update Invoice.")),
          sampleWorld, []).
Proof.
  apply (invoice_status_rejected "id-0000" noState
           [("customerId", JsString "c1"); ("amount", JsString "10.50");
            ("status", JsString "overdue")] sampleWorld);
    simpl; discriminate.
Defined.

(** ** Runs of the invoice actions on a valid form *)

(** One guarded statement: the [try] block sends [q] and falls through,
    the [catch] block returns [onError]. *)
Lemma guarded_statement {A} (q : Db.Statement) (onError : A) w :
  tryCatch (sql q ;; ret None) (fun _ => ret (Some onError)) w
  = match hd None (sqlOutcomes w) with
    | Some m => (Normal (Some onError), afterStatement (database w) w, [Sql q])
    | None =>
        (Normal None,
         afterStatement (snd (Db.exec (uuid_generate_v4 w) q (database w))) w,
         [Sql q])
    end.
Proof.
  unfold tryCatch, bind, sql, ret, afterStatement.
  destruct (hd None (sqlOutcomes w)); [reflexivity|].
  destruct (Db.exec (uuid_generate_v4 w) q (database w)). reflexivity.
Qed.

Lemma createInvoice_valid prevState formData w customerId amount status :
  CreateInvoice (invoiceInput formData)
  = Zod.success (FormSchema.mkData customerId amount status) ->
  let q := Db.InsertInvoice customerId (amount * 100)%float status
             (JsDate.isoDate (now w)) in
  createInvoice prevState formData w
  = match hd None (sqlOutcomes w) with
    | Some m =>
        (Normal (mkState None (Some "Database Error: Failed to Create Invoice.")),
         afterStatement (database w) w, [Sql q])
    | None =>
        (Throw (RedirectError "/dashboard/invoices"),
         afterStatement (snd (Db.exec (uuid_generate_v4 w) q (database w))) w,
         [Sql q; RevalidatePath "/dashboard/invoices";
          Redirect "/dashboard/invoices"])
    end.
Proof.
  intros E q. unfold createInvoice. rewrite E.
  unfold bind at 1. unfold newDate at 1.
  rewrite dateStamp_isoDate. fold q.
  unfold bind at 1. rewrite guarded_statement.
  destruct (hd None (sqlOutcomes w)); reflexivity.
Qed.

Lemma updateInvoice_valid id prevState formData w customerId amount status :
  UpdateInvoice (invoiceInput formData)
  = Zod.success (FormSchema.mkData customerId amount status) ->
  let q := Db.UpdateInvoice customerId (amount * 100)%float status id in
  updateInvoice id prevState formData w
  = match hd None (sqlOutcomes w) with
    | Some m =>
        (Normal (mkState None (Some "Database Error: Failed to Update Invoice.")),
         afterStatement (database w) w, [Sql q])
    | None =>
        (Throw (RedirectError "/dashboard/invoices"),
         afterStatement (snd (Db.exec (uuid_generate_v4 w) q (database w))) w,
         [Sql q; RevalidatePath "/dashboard/invoices";
          Redirect "/dashboard/invoices"])
    end.
Proof.
  intros E q. unfold updateInvoice. rewrite E. fold q.
  unfold bind at 1. rewrite guarded_statement.
  destruct (hd None (sqlOutcomes w)); reflexivity.
Qed.

(** Either the form validates, or one of its properties has an issue. *)
Lemma invoice_form_cases formData :
  (exists data, CreateInvoice (invoiceInput formData) = Zod.success data)
  \/ (Zod.issuesOf (Zod.parseKey "customerId" FormSchema.customerId
                      (FormData_get "customerId" formData)) <> []
      \/ Zod.issuesOf (Zod.parseKey "amount" FormSchema.amount
                         (FormData_get "amount" formData)) <> []
      \/ Zod.issuesOf (Zod.parseKey "status" FormSchema.status
                         (FormData_get "status" formData)) <> []).
Proof.
  unfold CreateInvoice, invoiceInput, FormSchema.omit_id_date_safeParse;
    cbn [FormSchema.in_customerId FormSchema.in_amount FormSchema.in_status].
  rewrite parse_customerId, parse_amount.
  destruct (parse_status (FormData_get "status" formData))
    as [(s & _ & _ & ->)|(_ & _ & code & msg & ->)].
  2: right; right; right; discriminate.
  destruct (FormData_get "customerId" formData).
  1,3: right; left; discriminate.
  destruct (is_nan _). { right; right; left; discriminate. }
  destruct (_ <=? _)%float. { right; right; left; discriminate. }
  left. eexists. reflexivity.
Qed.

Lemma validInvoice_parsed formData :
  FormData_get "customerId" formData = JsString "c1" ->
  FormData_get "amount" formData = JsString "10.50" ->
  FormData_get "status" formData = JsString "paid" ->
  CreateInvoice (invoiceInput formData)
  = Zod.success (FormSchema.mkData "c1" 10.5%float "paid").
Proof.
  intros Hc Ha Hs. unfold CreateInvoice, invoiceInput. rewrite Hc, Ha, Hs.
  vm_compute. reflexivity.
Qed.

(** C1. On a form with customerId [c1], amount [10.50] and status [paid],
    when the database accepts the statement, [createInvoice] adds to the
    [invoices] table one row with amount 1050 (10.5 times 100) and, as
    date, the calendar date of the present UTC day; the only statement
    sent is that insertion; the invoices-list path is marked stale exactly
    once and the run redirects to that path exactly once. *)
Theorem createInvoice_valid_input (prevState : State) (formData : FormData)
    (w : World) :
  FormData_get "customerId" formData = JsString "c1" ->
  FormData_get "amount" formData = JsString "10.50" ->
  FormData_get "status" formData = JsString "paid" ->
  hd None (sqlOutcomes w) = None ->
  let r := createInvoice prevState formData w in
  let row := Invoices.mkRow (uuid_generate_v4 w (Db.serial (database w)))
               "c1" 1050%float "paid" (JsDate.isoDate (now w)) in
  Db.invoices (database (final r)) = (Db.invoices (database w) ++ [row])%list
  /\ Db.users (database (final r)) = Db.users (database w)
  /\ statements (effects r)
     = [Db.InsertInvoice "c1" 1050%float "paid" (JsDate.isoDate (now w))]
  /\ revalidations (effects r) = ["/dashboard/invoices"]
  /\ redirects (effects r) = ["/dashboard/invoices"]
  /\ completion r = Throw (RedirectError "/dashboard/invoices").
Proof.
  intros Hc Ha Hs Hok r row. subst r.
  rewrite (@createInvoice_valid prevState formData w _ _ _
             (validInvoice_parsed _ Hc Ha Hs)), Hok.
  change (10.5 * 100)%float with 1050%float.
  repeat split; reflexivity.
Qed.

Lemma createInvoice_valid_input_witness :
  let r := createInvoice noState validInvoiceForm sampleWorld in
  Db.invoices (database (final r))
  = [Invoices.mkRow "id-0001" "c1" 1050%float "paid" "2026-11-02"]
  /\ Db.users (database (final r)) = Db.users (database sampleWorld)
  /\ statements (effects r) = [Db.InsertInvoice "c1" 1050%float "paid" "2026-11-02"]
  /\ revalidations (effects r) = ["/dashboard/invoices"]
  /\ redirects (effects r) = ["/dashboard/invoices"]
  /\ completion r = Throw (RedirectError "/dashboard/invoices").
Proof.
  apply (createInvoice_valid_input noState validInvoiceForm sampleWorld);
    reflexivity.
Defined.

(** C4, as the specification states it, fails. The form whose customerId
    is the empty string, with amount [10.50] and status [paid], passes
    validation: the insertion is sent with an empty customer reference and
    the row is in the table afterwards. So it is not the case that every
    form with an empty customerId is answered with field errors and
    leaves the table as it was. *)
Lemma createInvoice_empty_customerId_accepted :
  let r := createInvoice noState emptyCustomerForm sampleWorld in
  FormData_get "customerId" emptyCustomerForm = JsString ""
  /\ completion r = Throw (RedirectError "/dashboard/invoices")
  /\ statements (effects r) = [Db.InsertInvoice "" 1050%float "paid" "2026-11-02"]
  /\ Db.invoices (database (final r))
     = [Invoices.mkRow "id-0001" "" 1050%float "paid" "2026-11-02"]
  /\ ~ (forall prevState formData w,
          FormData_get "customerId" formData = JsString "" ->
          (exists fe msg,
             completion (createInvoice prevState formData w)
             = Normal (mkState (Some fe) msg))
          /\ Db.invoices (database (final (createInvoice prevState formData w)))
             = Db.invoices (database w)).
Proof.
  cbv zeta. split; [reflexivity|]. split; [vm_compute; reflexivity|].
  split; [vm_compute; reflexivity|]. split; [vm_compute; reflexivity|].
  intros claim.
  destruct (claim noState emptyCustomerForm sampleWorld eq_refl) as [_ same].
  vm_compute in same. discriminate same.
Qed.

(** C4, amended. [createInvoice] requires customerId to be a string: a
    form whose customerId is no string (no entry, or a file) is rejected
    with the message [Please select a customer.] on the [customerId]
    field; the world is unchanged and no effect happened, so no row is
    inserted. *)
Theorem createInvoice_customerId_required (prevState : State)
    (formData : FormData) (w : World) :
  (forall s, FormData_get "customerId" formData <> JsString s) ->
  exists fe,
    err_customerId fe = Some ["Please select a customer."]
    /\ createInvoice prevState formData w
       = (Normal (mkState (Some fe) (Some "Missing Fields. Failed to create Invoice.")),
          w, []).
Proof.
  intros H.
  assert (E : Zod.parseKey "customerId" FormSchema.customerId
                (FormData_get "customerId" formData)
              = inr [Zod.mkIssue "invalid_type" "customerId"
                       "Please select a customer."]).
  { rewrite parse_customerId.
    destruct (FormData_get "customerId" formData) as [|s|f]; try reflexivity.
    now elim (H s). }
  eexists. split.
  2: apply createInvoice_rejects; left; rewrite E; discriminate.
  cbn [err_customerId]. unfold messagesOf. now rewrite E.
Qed.

Lemma createInvoice_customerId_required_witness :
  exists fe,
    err_customerId fe = Some ["Please select a customer."]
    /\ createInvoice noState
         [("amount", JsString "10.50"); ("status", JsString "paid")] sampleWorld
       = (Normal (mkState (Some fe) (Some "Missing Fields. Failed to create Invoice.")),
          sampleWorld, []).
Proof.
  apply (createInvoice_customerId_required noState
           [("amount", JsString "10.50"); ("status", JsString "paid")] sampleWorld).
  intros s. simpl. discriminate.
Defined.

(** ** Deleting an invoice *)

Lemma deleteInvoice_run id w :
  deleteInvoice id w
  = match hd None (sqlOutcomes w) with
    | Some m =>
        (Normal tt, afterStatement (database w) w,
         [Sql (Db.DeleteInvoice id); ConsoleLog m])
    | None =>
        (Normal tt,
         afterStatement
           (snd (Db.exec (uuid_generate_v4 w) (Db.DeleteInvoice id) (database w))) w,
         [Sql (Db.DeleteInvoice id); RevalidatePath "/dashboard/invoices"])
    end.
Proof.
  unfold deleteInvoice, tryCatch, bind, sql, afterStatement.
  destruct (hd None (sqlOutcomes w)); reflexivity.
Qed.

(** C8. Whatever the identifier and whatever the outcome of the [DELETE]
    statement, [deleteInvoice] completes normally and returns [undefined]:
    it neither throws nor returns an error payload. When the statement
    fails, the run does nothing but write the error to the console, and
    the database is as before. *)
Theorem deleteInvoice_never_fails (id : string) (w : World) :
  completion (deleteInvoice id w) = Normal tt
  /\ forall m,
       hd None (sqlOutcomes w) = Some m ->
       effects (deleteInvoice id w)
       = [Sql (Db.DeleteInvoice id); ConsoleLog m]
       /\ database (final (deleteInvoice id w)) = database w.
Proof.
  rewrite deleteInvoice_run.
  split.
  - destruct (hd None (sqlOutcomes w)); reflexivity.
  - intros m ->. split; reflexivity.
Qed.

Lemma deleteInvoice_never_fails_witness :
  completion (deleteInvoice "id-0007" failingWorld) = Normal tt
  /\ effects (deleteInvoice "id-0007" failingWorld)
     = [Sql (Db.DeleteInvoice "id-0007");
        ConsoleLog (PostgresError "connection refused")]
  /\ database (final (deleteInvoice "id-0007" failingWorld))
     = database failingWorld.
Proof.
  split.
  - apply (deleteInvoice_never_fails "id-0007" failingWorld).
  - apply (proj2 (deleteInvoice_never_fails "id-0007" failingWorld)
             (PostgresError "connection refused")).
    reflexivity.
Defined.

(** C10. [deleteInvoice] marks the invoices-list path stale exactly when
    the [DELETE] statement succeeds: a run whose statement fails marks no
    path stale, leaves the database as it was and still completes
    normally; a run whose statement succeeds marks that path once. *)
Theorem deleteInvoice_invalidates_on_success_only (id : string) (w : World) :
  (forall m,
     hd None (sqlOutcomes w) = Some m ->
     revalidations (effects (deleteInvoice id w)) = []
     /\ database (final (deleteInvoice id w)) = database w
     /\ completion (deleteInvoice id w) = Normal tt)
  /\ (hd None (sqlOutcomes w) = None ->
      revalidations (effects (deleteInvoice id w)) = ["/dashboard/invoices"]).
Proof.
  rewrite deleteInvoice_run. split.
  - intros m ->. repeat split; reflexivity.
  - intros ->. reflexivity.
Qed.

Lemma deleteInvoice_invalidates_on_success_only_witness :
  revalidations (effects (deleteInvoice "id-0007" failingWorld)) = []
  /\ database (final (deleteInvoice "id-0007" failingWorld)) = database failingWorld
  /\ completion (deleteInvoice "id-0007" failingWorld) = Normal tt
  /\ revalidations (effects (deleteInvoice "id-0007" sampleWorld))
     = ["/dashboard/invoices"].
Proof.
  destruct (proj1 (deleteInvoice_invalidates_on_success_only "id-0007" failingWorld)
              (PostgresError "connection refused") eq_refl) as (H1 & H2 & H3).
  refine (conj H1 (conj H2 (conj H3 _))).
  apply (proj2 (deleteInvoice_invalidates_on_success_only "id-0007" sampleWorld)).
  reflexivity.
Defined.

(** ** Signing in *)

(** C7. When [signIn] throws an authentication error, [authenticate]
    returns the string [Invalid credentials.] if the error's type is
    [CredentialsSignin] and the string [Something went wrong.] for every
    other type; an error that is no authentication error is thrown again,
    the very same error, and no string is returned. *)
Theorem authenticate_error_mapping (prevState : option string)
    (formData : FormData) (w : World) :
  (signInOutcome w = Some (AuthError "CredentialsSignin") ->
   completion (authenticate prevState formData w)
   = Normal (Some "Invalid credentials."))
  /\ (forall type,
        type <> "CredentialsSignin" ->
        signInOutcome w = Some (AuthError type) ->
        completion (authenticate prevState formData w)
        = Normal (Some "Something went wrong."))
  /\ (forall e,
        (forall type, e <> AuthError type) ->
        signInOutcome w = Some e ->
        completion (authenticate prevState formData w) = Throw e).
Proof.
  unfold authenticate, tryCatch, bind, signIn, completion.
  split; [|split].
  - intros ->. reflexivity.
  - intros type Hne ->. cbn.
    apply String.eqb_neq in Hne. now rewrite Hne.
  - intros e Hno ->. destruct e; try reflexivity.
    now elim (Hno type).
Qed.

Lemma authenticate_error_mapping_witness :
  completion (authenticate None [("email", JsString "ann@example.com")]
                (signInFails (AuthError "CredentialsSignin")))
  = Normal (Some "Invalid credentials.")
  /\ completion (authenticate None [("email", JsString "ann@example.com")]
                   (signInFails (AuthError "CallbackRouteError")))
     = Normal (Some "Something went wrong.")
  /\ completion (authenticate None [("email", JsString "ann@example.com")]
                   (signInFails (OtherError "fetch failed")))
     = Throw (OtherError "fetch failed").
Proof.
  split; [|split].
  - apply (proj1 (authenticate_error_mapping None
                    [("email", JsString "ann@example.com")]
                    (signInFails (AuthError "CredentialsSignin")))).
    reflexivity.
  - apply (proj1 (proj2 (authenticate_error_mapping None
                           [("email", JsString "ann@example.com")]
                           (signInFails (AuthError "CallbackRouteError"))))
             "CallbackRouteError"); [discriminate | reflexivity].
  - apply (proj2 (proj2 (authenticate_error_mapping None
                           [("email", JsString "ann@example.com")]
                           (signInFails (OtherError "fetch failed"))))
             (OtherError "fetch failed")); [discriminate | reflexivity].
Defined.

(** ** Registration *)

Lemma parse_min n msg v :
  Zod.parse (Zod.min n msg (Zod.string_ None)) v
  = match v with
    | JsString s =>
        if (String.length s <? n)%nat then inr [("too_small", msg)] else inl s
    | _ => inr [Zod.invalidType None "string" (Zod.parsedType v)]
    end.
Proof.
  destruct v as [|s|f]; try reflexivity.
  unfold Zod.parse, Zod.min, Zod.addCheck; cbn [Zod.typed Zod.checks Zod.string_ app
    Zod.runChecks].
  destruct (String.length s <? n)%nat; reflexivity.
Qed.

Lemma parse_email v :
  Zod.parse RegisterFormSchema.email v
  = match v with
    | JsString s =>
        if Zod.emailRegex s then inl s
        else inr [("invalid_string", "Please enter a valid email address.")]
    | _ => inr [Zod.invalidType None "string" (Zod.parsedType v)]
    end.
Proof.
  destruct v as [|s|f]; try reflexivity.
  unfold Zod.parse, RegisterFormSchema.email, Zod.email, Zod.addCheck;
    cbn [Zod.typed Zod.checks Zod.string_ app Zod.runChecks].
  destruct (Zod.emailRegex s); reflexivity.
Qed.

(** A password shorter than six code units fails the schema, whatever
    the other fields are. *)
Lemma register_short_password formData password :
  FormData_get "password" formData = JsString password ->
  (String.length password < 6)%nat ->
  exists error,
    RegisterFormSchema.safeParse (registerInput formData) = Zod.failure error.
Proof.
  intros Hp Hlen.
  unfold RegisterFormSchema.safeParse, registerInput;
    cbn [RegisterFormSchema.in_name RegisterFormSchema.in_email
         RegisterFormSchema.in_password].
  rewrite Hp. unfold Zod.parseKey at 3. unfold RegisterFormSchema.password.
  rewrite parse_min.
  apply Nat.ltb_lt in Hlen. rewrite Hlen.
  destruct (Zod.parseKey "name" _ _), (Zod.parseKey "email" _ _);
    eexists; reflexivity.
Qed.

(** A non-empty name, an address matching the pattern and a password of
    six code units or more pass it. *)
Lemma register_form_valid formData name email password :
  FormData_get "name" formData = JsString name ->
  FormData_get "email" formData = JsString email ->
  FormData_get "password" formData = JsString password ->
  (1 <= String.length name)%nat ->
  Zod.emailRegex email = true ->
  (6 <= String.length password)%nat ->
  RegisterFormSchema.safeParse (registerInput formData)
  = Zod.success (RegisterFormSchema.mkData name email password).
Proof.
  intros Hn He Hp Ln Le Lp.
  unfold RegisterFormSchema.safeParse, registerInput;
    cbn [RegisterFormSchema.in_name RegisterFormSchema.in_email
         RegisterFormSchema.in_password].
  rewrite Hn, He, Hp. unfold Zod.parseKey.
  unfold RegisterFormSchema.name, RegisterFormSchema.password.
  rewrite !parse_min, parse_email, Le.
  apply Nat.ltb_ge in Ln, Lp. now rewrite Ln, Lp.
Qed.

Lemma select_finds email d :
  (0 <? List.length
          (fst (Db.exec (fun _ => "") (Db.SelectUserId email) d)))%nat
  = emailTaken email d.
Proof.
  unfold emailTaken. cbn [Db.exec fst].
  induction (Db.users d) as [|u l IH]; [reflexivity|].
  cbn [filter existsb]. destruct (String.eqb (Users.email u) email); [reflexivity|].
  exact IH.
Qed.

Lemma register_invalid prevState formData w error :
  RegisterFormSchema.safeParse (registerInput formData) = Zod.failure error ->
  register prevState formData w
  = (Normal "Missing Fields. Failed to Register.", w, []).
Proof. intros E. unfold register. now rewrite E. Qed.

(** The four runs of [register] on a valid form: the lookup fails; the
    address is taken; the insertion fails; the user is registered. *)
Lemma register_valid prevState formData w name email password :
  RegisterFormSchema.safeParse (registerInput formData)
  = Zod.success (RegisterFormSchema.mkData name email password) ->
  let w1 := afterStatement (database w) w in
  let hashed := bcrypt w password 10 in
  let ins := Db.InsertUser name email hashed in
  register prevState formData w
  = match hd None (sqlOutcomes w) with
    | Some m =>
        (Normal "Database Error: Failed to register.", w1,
         [Sql (Db.SelectUserId email);
          ConsoleError "Registration Error:" m])
    | None =>
        if emailTaken email (database w)
        then (Normal "User with this email already exists.", w1,
              [Sql (Db.SelectUserId email)])
        else
          match hd None (sqlOutcomes w1) with
          | Some m =>
              (Normal "Database Error: Failed to register.",
               afterStatement (database w) w1,
               [Sql (Db.SelectUserId email); BcryptHash password 10; Sql ins;
                ConsoleError "Registration Error:" m])
          | None =>
              (Throw (RedirectError "/login"),
               afterStatement
                 (snd (Db.exec (uuid_generate_v4 w) ins (database w))) w1,
               [Sql (Db.SelectUserId email); BcryptHash password 10; Sql ins;
                Redirect "/login"])
          end
    end.
Proof.
  intros E w1 hashed ins. unfold register. rewrite E.
  unfold bind at 1. unfold tryCatch. unfold bind at 1. unfold sql at 1.
  destruct (hd None (sqlOutcomes w)) as [m|]; [reflexivity|].
  cbn [Db.exec].
  pose proof (select_finds email (database w)) as F. cbn [Db.exec fst] in F.
  rewrite F. fold (afterStatement (database w) w). fold w1.
  destruct (emailTaken email (database w)); [reflexivity|].
  unfold bind, bcryptjs_hash, sql.
  change (bcrypt w1) with (bcrypt w). fold hashed. fold ins.
  destruct (hd None (sqlOutcomes w1)); reflexivity.
Qed.

(** The validated address is the string of the form. *)
Lemma register_valid_email formData name email password :
  RegisterFormSchema.safeParse (registerInput formData)
  = Zod.success (RegisterFormSchema.mkData name email password) ->
  FormData_get "email" formData = JsString email.
Proof.
  unfold RegisterFormSchema.safeParse, registerInput;
    cbn [RegisterFormSchema.in_name RegisterFormSchema.in_email
         RegisterFormSchema.in_password].
  unfold Zod.parseKey at 2. rewrite parse_email.
  destruct (FormData_get "email" formData) as [|addr|f];
    destruct (Zod.parseKey "name" _ _), (Zod.parseKey "password" _ _);
    try discriminate;
    destruct (Zod.emailRegex addr); try discriminate.
  intros [= _ -> _]. reflexivity.
Qed.

Lemma emailTaken_present email d :
  (exists u, In u (Db.users d) /\ Users.email u = email) ->
  emailTaken email d = true.
Proof.
  intros (u & Hin & <-). apply existsb_exists.
  exists u. split; [assumption | apply String.eqb_refl].
Qed.

(** C5. When the address of the form is already that of a row of the
    [users] table, [register] leaves the database as it was and sends no
    [INSERT]; and when the form is valid and the database answers the
    lookup, it returns [User with this email already exists.] *)
Theorem register_existing_email (prevState : option string)
    (formData : FormData) (w : World) (email : string) :
  FormData_get "email" formData = JsString email ->
  (exists u, In u (Db.users (database w)) /\ Users.email u = email) ->
  let r := register prevState formData w in
  database (final r) = database w
  /\ (forall n e p, ~ In (Db.InsertUser n e p) (statements (effects r)))
  /\ (forall name password,
        FormData_get "name" formData = JsString name ->
        FormData_get "password" formData = JsString password ->
        (1 <= String.length name)%nat ->
        Zod.emailRegex email = true ->
        (6 <= String.length password)%nat ->
        hd None (sqlOutcomes w) = None ->
        completion r = Normal "User with this email already exists."
        /\ statements (effects r) = [Db.SelectUserId email]).
Proof.
  intros He Hin r. apply emailTaken_present in Hin.
  assert (U : database (final r) = database w
              /\ forall n e p, ~ In (Db.InsertUser n e p) (statements (effects r))).
  { subst r.
    destruct (RegisterFormSchema.safeParse (registerInput formData))
      as [[n e p]|error] eqn:E.
    - pose proof (register_valid_email _ E) as He'.
      rewrite He in He'. injection He' as <-.
      rewrite (@register_valid prevState formData w _ _ _ E), Hin.
      destruct (hd None (sqlOutcomes w)); split; try reflexivity;
        intros ? ? ? [H|[]]; discriminate H.
    - rewrite (@register_invalid prevState formData w _ E). split; [reflexivity|].
      intros ? ? ? []. }
  destruct U as [U1 U2]. split; [exact U1 | split; [exact U2|]].
  intros name password Hn Hp Ln Le Lp Hok. subst r.
  rewrite (@register_valid prevState formData w _ _ _
             (register_form_valid _ Hn He Hp Ln Le Lp)), Hok, Hin.
  split; reflexivity.
Qed.

Lemma register_existing_email_witness :
  let r := register None takenForm sampleWorld in
  database (final r) = database sampleWorld
  /\ (forall n e p, ~ In (Db.InsertUser n e p) (statements (effects r)))
  /\ completion r = Normal "User with this email already exists."
  /\ statements (effects r) = [Db.SelectUserId "ann@example.com"].
Proof.
  assert (Hin : exists u, In u (Db.users (database sampleWorld))
                          /\ Users.email u = "ann@example.com").
  { eexists. split; [left; reflexivity | reflexivity]. }
  destruct (register_existing_email None takenForm sampleWorld eq_refl Hin)
    as (H1 & H2 & H3).
  refine (conj H1 (conj H2 _)).
  apply (H3 "Ann" "secret"); try reflexivity; simpl; lia.
Defined.

(** C6. With a password of five code units [register] is rejected by the
    schema: it returns its validation message, has no effect and leaves
    the world as it was, so the database is not reached. With a password
    of six code units, a non-empty name, a well-formed address that no row
    of [users] has and a database that answers the lookup, it looks the
    address up, hashes the password with [bcryptjs.hash] at cost 10 and
    sends the insertion of the name, the address and that digest; when
    the insertion succeeds the new row is in [users] and the run
    redirects to the login page. *)
Theorem register_password_length (prevState : option string)
    (formData : FormData) (w : World) (password : string) :
  FormData_get "password" formData = JsString password ->
  (String.length password = 5%nat ->
   register prevState formData w
   = (Normal "Missing Fields. Failed to Register.", w, []))
  /\ (String.length password = 6%nat ->
      forall name email,
        FormData_get "name" formData = JsString name ->
        FormData_get "email" formData = JsString email ->
        (1 <= String.length name)%nat ->
        Zod.emailRegex email = true ->
        emailTaken email (database w) = false ->
        hd None (sqlOutcomes w) = None ->
        let r := register prevState formData w in
        let digest := bcrypt w password 10 in
        (exists rest,
           effects r
           = [Sql (Db.SelectUserId email); BcryptHash password 10;
              Sql (Db.InsertUser name email digest)] ++ rest)%list
        /\ (hd None (tl (sqlOutcomes w)) = None ->
            Db.users (database (final r))
            = (Db.users (database w)
               ++ [Users.mkRow (uuid_generate_v4 w (Db.serial (database w)))
                     name email digest])%list
            /\ completion r = Throw (RedirectError "/login"))).
Proof.
  intros Hp. split.
  - intros L5.
    destruct (@register_short_password formData password Hp) as [error E];
      [lia|].
    exact (@register_invalid prevState formData w error E).
  - intros L6 name email Hn He Ln Le Hfresh Hok r digest. subst r.
    assert (Lp : (6 <= String.length password)%nat) by lia.
    rewrite (@register_valid prevState formData w _ _ _
               (register_form_valid _ Hn He Hp Ln Le Lp)), Hok, Hfresh.
    cbn [afterStatement sqlOutcomes]. fold digest.
    destruct (hd None (tl (sqlOutcomes w))) as [m|].
    + split; [eexists; reflexivity | discriminate].
    + split; [eexists; reflexivity|]. intros _. split; reflexivity.
Qed.

Lemma register_password_length_witness :
  register None shortPasswordForm sampleWorld
  = (Normal "Missing Fields. Failed to Register.", sampleWorld, [])
  /\ (exists rest,
        effects (register None freshForm sampleWorld)
        = [Sql (Db.SelectUserId "bob@example.com"); BcryptHash "123456" 10;
           Sql (Db.InsertUser "Bob" "bob@example.com" "$2a$10$123456")] ++ rest)%list
  /\ Db.users (database (final (register None freshForm sampleWorld)))
     = [Users.mkRow "u-0" "Ann" "ann@example.com" "$2a$10$digest";
        Users.mkRow "id-0001" "Bob" "bob@example.com" "$2a$10$123456"]
  /\ completion (register None freshForm sampleWorld)
     = Throw (RedirectError "/login").
Proof.
  split.
  - apply (proj1 (@register_password_length None shortPasswordForm sampleWorld
                    "12345" eq_refl)).
    reflexivity.
  - destruct (proj2 (@register_password_length None freshForm sampleWorld
                       "123456" eq_refl)
                eq_refl "Bob" "bob@example.com" eq_refl eq_refl
                ltac:(simpl; lia) eq_refl eq_refl eq_refl) as [H1 H2].
    exact (conj H1 (H2 eq_refl)).
Defined.

(** ** Redirects *)

Lemma invoice_form_rejected formData :
  (Zod.issuesOf (Zod.parseKey "customerId" FormSchema.customerId
                   (FormData_get "customerId" formData)) <> []
   \/ Zod.issuesOf (Zod.parseKey "amount" FormSchema.amount
                      (FormData_get "amount" formData)) <> []
   \/ Zod.issuesOf (Zod.parseKey "status" FormSchema.status
                      (FormData_get "status" formData)) <> []) ->
  ~ exists data, CreateInvoice (invoiceInput formData) = Zod.success data.
Proof.
  intros F [data E]. unfold CreateInvoice, invoiceInput in E.
  rewrite (safeParse_failure _ _ _ F) in E. discriminate E.
Qed.

(** A goal that places an effect in a list of effects of other kinds. *)
Ltac not_among :=
  let H := fresh "H" in
  intros H; repeat (destruct H as [H|H]; [discriminate H|]); destruct H.

(** A run of one guarded invoice statement redirects exactly when the
    statement succeeds, to the invoices list. *)
Lemma invoice_run_redirects {A} (q : Db.Statement) (onError : Completion A)
    (w w1 w2 : World) (url : string) (valid : Prop) :
  valid ->
  In (Redirect url)
    (effects
       match hd None (sqlOutcomes w) with
       | Some m => (onError, w1, [Sql q])
       | None =>
           (Throw (RedirectError "/dashboard/invoices"), w2,
            [Sql q; RevalidatePath "/dashboard/invoices";
             Redirect "/dashboard/invoices"])
       end)
  <-> url = "/dashboard/invoices" /\ valid /\ hd None (sqlOutcomes w) = None.
Proof.
  intros V. destruct (hd None (sqlOutcomes w)) as [m|]; cbn [effects snd].
  - split; [not_among | intros (_ & _ & H); discriminate H].
  - split.
    + intros [H|[H|[H|[]]]]; try discriminate H. injection H as <-. auto.
    + intros (-> & _). right. right. now left.
Qed.

(** C9. A run of [createInvoice] or [updateInvoice] redirects exactly when
    the form validates and the database accepts the statement, and then to
    the invoices list; a run of [register] redirects exactly when the form
    validates, the lookup succeeds and finds no row of that address, and
    the insertion succeeds, and then to the login page. No run whose
    validation fails or whose statement fails redirects; [deleteInvoice]
    and [authenticate] never call [redirect]. In the three actions that
    redirect, the redirect is the last effect of the run and follows the
    statements. *)
Theorem redirect_only_after_success (id : string) (prevState : State)
    (prevMessage : option string) (formData : FormData) (w : World)
    (url : string) :
  (In (Redirect url) (effects (createInvoice prevState formData w))
   <-> url = "/dashboard/invoices"
       /\ (exists data, CreateInvoice (invoiceInput formData) = Zod.success data)
       /\ hd None (sqlOutcomes w) = None)
  /\ (In (Redirect url) (effects (updateInvoice id prevState formData w))
      <-> url = "/dashboard/invoices"
          /\ (exists data, UpdateInvoice (invoiceInput formData) = Zod.success data)
          /\ hd None (sqlOutcomes w) = None)
  /\ (In (Redirect url) (effects (register prevMessage formData w))
      <-> url = "/login"
          /\ (exists name email password,
                RegisterFormSchema.safeParse (registerInput formData)
                = Zod.success (RegisterFormSchema.mkData name email password)
                /\ emailTaken email (database w) = false)
          /\ hd None (sqlOutcomes w) = None
          /\ hd None (tl (sqlOutcomes w)) = None)
  /\ ~ In (Redirect url) (effects (deleteInvoice id w))
  /\ ~ In (Redirect url) (effects (authenticate prevMessage formData w))
  /\ redirectClosesRun false (effects (createInvoice prevState formData w)) = true
  /\ redirectClosesRun false (effects (updateInvoice id prevState formData w)) = true
  /\ redirectClosesRun false (effects (register prevMessage formData w)) = true.
Proof.
  pose proof (@invoice_form_rejected formData) as Rejected.
  split; [|split; [|split; [|split; [|split; [|split; [|split]]]]]].
  - destruct (invoice_form_cases formData) as [[[c a s] E]|F].
    + rewrite (@createInvoice_valid prevState formData w c a s E).
      apply invoice_run_redirects. eauto.
    + rewrite (createInvoice_rejects prevState formData w F). cbn [effects snd].
      split; [intros [] | intros (_ & V & _); elim (Rejected F V)].
  - destruct (invoice_form_cases formData) as [[[c a s] E]|F].
    + rewrite (@updateInvoice_valid id prevState formData w c a s E).
      apply invoice_run_redirects. eauto.
    + rewrite (updateInvoice_rejects prevState formData w F). cbn [effects snd].
      split; [intros [] | intros (_ & V & _); elim (Rejected F V)].
  - destruct (RegisterFormSchema.safeParse (registerInput formData))
      as [[n e p]|error] eqn:E.
    + rewrite (@register_valid prevMessage formData w n e p E).
      cbn [afterStatement sqlOutcomes].
      destruct (hd None (sqlOutcomes w)) as [m|]; cbn [effects snd].
      * split; [not_among | intros (_ & _ & H & _); discriminate H].
      * destruct (emailTaken e (database w)) eqn:T; cbn [effects snd].
        -- split; [not_among|].
           intros (_ & (n' & e' & p' & [= _ <- _] & T') & _).
           rewrite T in T'. discriminate T'.
        -- destruct (hd None (tl (sqlOutcomes w))) as [m|]; cbn [effects snd].
           ++ split; [not_among | intros (_ & _ & _ & H); discriminate H].
           ++ split.
              ** intros [H|[H|[H|[H|[]]]]]; try discriminate H.
                 injection H as <-. repeat split; eauto.
              ** intros (-> & _). right. right. right. now left.
    + rewrite (@register_invalid prevMessage formData w error E). cbn [effects snd].
      split; [intros [] | intros (_ & (n & e & p & H & _) & _); discriminate H].
  - rewrite deleteInvoice_run.
    destruct (hd None (sqlOutcomes w)); not_among.
  - unfold authenticate, tryCatch, bind, signIn, effects.
    destruct (signInOutcome w) as [[m|type|u|m]|]; cbn; try not_among.
    destruct (String.eqb type "CredentialsSignin"); cbn; not_among.
  - destruct (invoice_form_cases formData) as [[[c a s] E]|F].
    + rewrite (@createInvoice_valid prevState formData w c a s E).
      destruct (hd None (sqlOutcomes w)); reflexivity.
    + now rewrite (createInvoice_rejects prevState formData w F).
  - destruct (invoice_form_cases formData) as [[[c a s] E]|F].
    + rewrite (@updateInvoice_valid id prevState formData w c a s E).
      destruct (hd None (sqlOutcomes w)); reflexivity.
    + now rewrite (updateInvoice_rejects prevState formData w F).
  - destruct (RegisterFormSchema.safeParse (registerInput formData))
      as [[n e p]|error] eqn:E.
    + rewrite (@register_valid prevMessage formData w n e p E).
      cbn [afterStatement sqlOutcomes].
      destruct (hd None (sqlOutcomes w)), (emailTaken e (database w)),
        (hd None (tl (sqlOutcomes w))); reflexivity.
    + now rewrite (@register_invalid prevMessage formData w error E).
Qed.

Lemma redirect_only_after_success_witness :
  In (Redirect "/dashboard/invoices")
    (effects (createInvoice noState validInvoiceForm sampleWorld))
  /\ ~ In (Redirect "/dashboard/invoices")
         (effects (createInvoice noState validInvoiceForm failingWorld))
  /\ In (Redirect "/login") (effects (register None freshForm sampleWorld))
  /\ ~ In (Redirect "/login") (effects (register None takenForm sampleWorld)).
Proof.
  pose proof (redirect_only_after_success "id-0001" noState None
                validInvoiceForm sampleWorld "/dashboard/invoices") as (C & _).
  pose proof (redirect_only_after_success "id-0001" noState None
                validInvoiceForm failingWorld "/dashboard/invoices") as (F & _).
  pose proof (redirect_only_after_success "id-0001" noState None
                freshForm sampleWorld "/login") as (_ & _ & R & _).
  pose proof (redirect_only_after_success "id-0001" noState None
                takenForm sampleWorld "/login") as (_ & _ & T & _).
  split; [|split; [|split]].
  - apply (proj2 C). split; [reflexivity | split; [|reflexivity]].
    eexists. vm_compute. reflexivity.
  - intros H. apply (proj1 F) in H. destruct H as (_ & _ & H). discriminate H.
  - apply (proj2 R). split; [reflexivity | split; [|split; reflexivity]].
    exists "Bob", "bob@example.com", "123456". split; vm_compute; reflexivity.
  - intros H. apply (proj1 T) in H.
    destruct H as (_ & (n & e & p & E & Hfresh) & _).
    vm_compute in E. injection E as <- <- <-. vm_compute in Hfresh.
    discriminate Hfresh.
Defined.

(** * Further properties of the actions *)

(** ** The invoice form *)

(** The form validates exactly when its customerId is a string, its amount
    coerces to a number above zero and its status is one of the two
    values; the validated data are then the form's own. *)
Lemma invoice_form_valid formData c s :
  FormData_get "customerId" formData = JsString c ->
  positiveAmount (FormData_get "amount" formData) = true ->
  FormData_get "status" formData = JsString s ->
  isStatus s ->
  CreateInvoice (invoiceInput formData)
  = Zod.success
      (FormSchema.mkData c (Number (FormData_get "amount" formData)) s).
Proof.
  intros Hc Ha Hs Hst.
  unfold CreateInvoice, invoiceInput, FormSchema.omit_id_date_safeParse;
    cbn [FormSchema.in_customerId FormSchema.in_amount FormSchema.in_status].
  rewrite parse_customerId, parse_amount, Hc.
  unfold positiveAmount in Ha. apply andb_true_iff in Ha as [Hn Hp].
  apply negb_true_iff in Hn, Hp. rewrite Hn, Hp.
  destruct (parse_status (FormData_get "status" formData))
    as [(s' & E & _ & ->)|(Hp' & Hq' & _)].
  - rewrite Hs in E. now injection E as <-.
  - rewrite Hs in Hp', Hq'. destruct Hst as [-> | ->]; contradiction.
Qed.

Lemma invoice_form_valid_inv formData c a s :
  CreateInvoice (invoiceInput formData)
  = Zod.success (FormSchema.mkData c a s) ->
  FormData_get "customerId" formData = JsString c
  /\ a = Number (FormData_get "amount" formData)
  /\ positiveAmount (FormData_get "amount" formData) = true
  /\ FormData_get "status" formData = JsString s
  /\ isStatus s.
Proof.
  unfold CreateInvoice, invoiceInput, FormSchema.omit_id_date_safeParse;
    cbn [FormSchema.in_customerId FormSchema.in_amount FormSchema.in_status].
  rewrite parse_customerId, parse_amount. unfold positiveAmount.
  destruct (parse_status (FormData_get "status" formData))
    as [(s' & E & Hst & ->)|(_ & _ & code & msg & ->)];
    destruct (FormData_get "customerId" formData) as [|c'|f];
    destruct (is_nan _); destruct (_ <=? _)%float; try discriminate.
  intros [= <- <- <-]. repeat split; auto.
Qed.

(** X1. For every form that validates, when the database accepts the
    statement, [createInvoice] appends to [invoices] one row holding the
    form's customerId and status, the coerced amount times 100 and the
    date of the present UTC day; the rows already there and the [users]
    table are kept; the list path is marked stale once and the run ends
    in the redirect to it. *)
Theorem createInvoice_inserts (prevState : State) (formData : FormData)
    (w : World) (c s : string) :
  FormData_get "customerId" formData = JsString c ->
  positiveAmount (FormData_get "amount" formData) = true ->
  FormData_get "status" formData = JsString s ->
  isStatus s ->
  hd None (sqlOutcomes w) = None ->
  let r := createInvoice prevState formData w in
  let row := Invoices.mkRow (uuid_generate_v4 w (Db.serial (database w))) c
               (Number (FormData_get "amount" formData) * 100)%float s
               (JsDate.isoDate (now w)) in
  Db.invoices (database (final r)) = (Db.invoices (database w) ++ [row])%list
  /\ Db.users (database (final r)) = Db.users (database w)
  /\ revalidations (effects r) = ["/dashboard/invoices"]
  /\ redirects (effects r) = ["/dashboard/invoices"]
  /\ completion r = Throw (RedirectError "/dashboard/invoices").
Proof.
  intros Hc Ha Hs Hst Hok r row. subst r.
  rewrite (@createInvoice_valid prevState formData w _ _ _
             (invoice_form_valid _ Hc Ha Hs Hst)), Hok.
  repeat split; reflexivity.
Qed.

Lemma createInvoice_inserts_witness :
  let r := createInvoice noState
             [("status", JsString "pending"); ("amount", JsString " 7 ");
              ("customerId", JsString "c9")] invoicedWorld in
  Db.invoices (database (final r))
  = (Db.invoices (database invoicedWorld)
     ++ [Invoices.mkRow "id-0001" "c9" 700%float "pending" "2026-11-02"])%list
  /\ Db.users (database (final r)) = Db.users (database invoicedWorld)
  /\ revalidations (effects r) = ["/dashboard/invoices"]
  /\ redirects (effects r) = ["/dashboard/invoices"]
  /\ completion r = Throw (RedirectError "/dashboard/invoices").
Proof.
  apply (@createInvoice_inserts noState
           [("status", JsString "pending"); ("amount", JsString " 7 ");
            ("customerId", JsString "c9")] invoicedWorld "c9" "pending");
    try reflexivity.
  left. reflexivity.
Defined.

(** X2. When the form validates and the database rejects the statement,
    [createInvoice] and [updateInvoice] return their database message
    with no field errors; the database is as before, the path is not
    marked stale, there is no redirect, and the error is not logged: the
    statement is the only effect. *)
Theorem invoice_persistence_failure (id : string) (prevState : State)
    (formData : FormData) (w : World) (c s : string) (e : JsError) :
  FormData_get "customerId" formData = JsString c ->
  positiveAmount (FormData_get "amount" formData) = true ->
  FormData_get "status" formData = JsString s ->
  isStatus s ->
  hd None (sqlOutcomes w) = Some e ->
  let cents := (Number (FormData_get "amount" formData) * 100)%float in
  createInvoice prevState formData w
  = (Normal (mkState None (Some "Database Error: Failed to Create Invoice.")),
     afterStatement (database w) w,
     [Sql (Db.InsertInvoice c cents s (JsDate.isoDate (now w)))])
  /\ updateInvoice id prevState formData w
     = (Normal (mkState None (Some "Database Error: Failed to Update Invoice.")),
        afterStatement (database w) w,
        [Sql (Db.UpdateInvoice c cents s id)]).
Proof.
  intros Hc Ha Hs Hst Hko cents.
  pose proof (invoice_form_valid _ Hc Ha Hs Hst) as V.
  rewrite (@createInvoice_valid prevState formData w _ _ _ V).
  rewrite (@updateInvoice_valid id prevState formData w _ _ _ V).
  rewrite Hko. split; reflexivity.
Qed.

Lemma invoice_persistence_failure_witness :
  createInvoice noState validInvoiceForm failingWorld
  = (Normal (mkState None (Some "Database Error: Failed to Create Invoice.")),
     afterStatement (database failingWorld) failingWorld,
     [Sql (Db.InsertInvoice "c1" 1050%float "paid" "2026-11-02")])
  /\ updateInvoice "inv-a" noState validInvoiceForm failingWorld
     = (Normal (mkState None (Some "Database Error: Failed to Update Invoice.")),
        afterStatement (database failingWorld) failingWorld,
        [Sql (Db.UpdateInvoice "c1" 1050%float "paid" "inv-a")]).
Proof.
  apply (@invoice_persistence_failure "inv-a" noState validInvoiceForm
           failingWorld "c1" "paid" (PostgresError "connection refused"));
    try reflexivity.
  right. reflexivity.
Defined.

(** X3. [createInvoice] and [updateInvoice] send a statement exactly when
    the customerId of the form is a string, its amount coerces to a number
    above zero and its status is [pending] or [paid]; on every other form
    the database is not reached. *)
Theorem invoice_statement_iff_valid (id : string) (prevState : State)
    (formData : FormData) (w : World) :
  let valid :=
    (exists c, FormData_get "customerId" formData = JsString c)
    /\ positiveAmount (FormData_get "amount" formData) = true
    /\ (exists s, FormData_get "status" formData = JsString s /\ isStatus s) in
  (statements (effects (createInvoice prevState formData w)) <> [] <-> valid)
  /\ (statements (effects (updateInvoice id prevState formData w)) <> [] <-> valid).
Proof.
  intros valid.
  destruct (invoice_form_cases formData) as [[[c a s] E]|F].
  - destruct (invoice_form_valid_inv _ E) as (Hc & _ & Ha & Hs & Hst).
    assert (V : valid) by (repeat split; eauto).
    rewrite (@createInvoice_valid prevState formData w c a s E).
    rewrite (@updateInvoice_valid id prevState formData w c a s E).
    destruct (hd None (sqlOutcomes w)); cbn [effects snd statements];
      split; split; intros; try assumption; discriminate.
  - assert (NV : ~ valid).
    { intros ([c Hc] & Ha & [s [Hs Hst]]).
      apply (@invoice_form_rejected formData F). eexists.
      exact (invoice_form_valid _ Hc Ha Hs Hst). }
    rewrite (createInvoice_rejects prevState formData w F).
    rewrite (updateInvoice_rejects prevState formData w F id).
    cbn [effects snd statements].
    split; split; intros H; try contradiction; now elim H.
Qed.

Lemma invoice_statement_iff_valid_witness :
  statements (effects (createInvoice noState validInvoiceForm sampleWorld)) <> []
  /\ statements (effects (updateInvoice "inv-a" noState
                            [("customerId", JsString "c1");
                             ("amount", JsString "0.00");
                             ("status", JsString "paid")] sampleWorld)) = [].
Proof.
  split.
  - apply (proj1 (invoice_statement_iff_valid "inv-a" noState validInvoiceForm
                    sampleWorld)).
    split; [now exists "c1" | split; [reflexivity|]].
    exists "paid". split; [reflexivity | now right].
  - destruct (statements _) eqn:E; [reflexivity|].
    assert (N : statements
                  (effects (updateInvoice "inv-a" noState
                              [("customerId", JsString "c1");
                               ("amount", JsString "0.00");
                               ("status", JsString "paid")] sampleWorld)) <> [])
      by (rewrite E; discriminate).
    apply (proj2 (invoice_statement_iff_valid "inv-a" noState _ sampleWorld)) in N.
    destruct N as (_ & N & _). vm_compute in N. discriminate N.
Defined.

Lemma messages_customerId v :
  messagesOf (Zod.parseKey "customerId" FormSchema.customerId v) = None
  <-> exists c, v = JsString c.
Proof.
  rewrite parse_customerId.
  destruct v; cbn; split; try discriminate; eauto; intros [c H]; discriminate H.
Qed.

Lemma messages_amount v :
  messagesOf (Zod.parseKey "amount" FormSchema.amount v) = None
  <-> positiveAmount v = true.
Proof.
  rewrite parse_amount. unfold positiveAmount.
  destruct (is_nan (Number v)); [cbn; split; discriminate|].
  destruct (Number v <=? 0)%float; cbn; split; try discriminate; reflexivity.
Qed.

Lemma messages_status v :
  messagesOf (Zod.parseKey "status" FormSchema.status v) = None
  <-> exists s, v = JsString s /\ isStatus s.
Proof.
  destruct (parse_status v) as [(s & E & Hst & ->)|(Hp & Hq & code & msg & ->)];
    cbn; split; try discriminate; eauto.
  intros (s & -> & [-> | ->]); contradiction.
Qed.

(** X4. When [createInvoice] or [updateInvoice] answers with field errors,
    each field is judged on its own value: [customerId] has no message
    exactly when it is a string, [amount] exactly when it coerces to a
    number above zero, [status] exactly when it is [pending] or [paid].
    All failing fields are reported together. *)
Theorem invoice_field_errors (id : string) (prevState : State)
    (formData : FormData) (w : World) (fe : FieldErrors) (msg : option string) :
  completion (createInvoice prevState formData w) = Normal (mkState (Some fe) msg)
  \/ completion (updateInvoice id prevState formData w)
     = Normal (mkState (Some fe) msg) ->
  (err_customerId fe = None
   <-> exists c, FormData_get "customerId" formData = JsString c)
  /\ (err_amount fe = None
      <-> positiveAmount (FormData_get "amount" formData) = true)
  /\ (err_status fe = None
      <-> exists s, FormData_get "status" formData = JsString s /\ isStatus s).
Proof.
  intros H.
  destruct (invoice_form_cases formData) as [[[c a s] E]|F].
  - rewrite (@createInvoice_valid prevState formData w c a s E) in H.
    rewrite (@updateInvoice_valid id prevState formData w c a s E) in H.
    destruct (hd None (sqlOutcomes w)); destruct H as [H|H]; discriminate H.
  - rewrite (createInvoice_rejects prevState formData w F) in H.
    rewrite (updateInvoice_rejects prevState formData w F id) in H.
    assert (Efe : fe = mkFieldErrors
                         (messagesOf (Zod.parseKey "customerId" FormSchema.customerId
                                        (FormData_get "customerId" formData)))
                         (messagesOf (Zod.parseKey "amount" FormSchema.amount
                                        (FormData_get "amount" formData)))
                         (messagesOf (Zod.parseKey "status" FormSchema.status
                                        (FormData_get "status" formData))))
      by (destruct H as [H|H]; now injection H).
    subst fe. cbn [err_customerId err_amount err_status].
    split; [apply messages_customerId | split];
      [apply messages_amount | apply messages_status].
Qed.

Lemma invoice_field_errors_witness :
  exists fe,
    completion (createInvoice noState [("amount", JsString "12")] sampleWorld)
    = Normal (mkState (Some fe) (Some "Missing Fields. Failed to create Invoice."))
    /\ err_customerId fe <> None /\ err_amount fe = None /\ err_status fe <> None.
Proof.
  eexists. split; [vm_compute; reflexivity|].
  destruct (@invoice_field_errors "inv-a" noState [("amount", JsString "12")]
              sampleWorld _ _ (or_introl eq_refl)) as (Hc & Ha & Hs).
  split; [|split].
  - intros N. apply (proj1 Hc) in N. destruct N as [c N]. discriminate N.
  - apply (proj2 Ha). reflexivity.
  - intros N. apply (proj1 Hs) in N. destruct N as (s & N & _). discriminate N.
Defined.

(** ** Updating and deleting rows *)

Lemma hasInvoice_false_forall id d :
  hasInvoice id d = false ->
  Forall (fun r => String.eqb (Invoices.id r) id = false) (Db.invoices d).
Proof.
  unfold hasInvoice. induction (Db.invoices d) as [|r l IH]; cbn; [constructor|].
  intros H. apply orb_false_iff in H as [Hr Hl]. constructor; auto.
Qed.

Lemma filter_keeps_all {A} (f : A -> bool) l :
  Forall (fun x => f x = true) l -> filter f l = l.
Proof.
  induction 1 as [|x l Hx _ IH]; cbn; [reflexivity|]. now rewrite Hx, IH.
Qed.

Lemma filter_twice {A} (f : A -> bool) l : filter f (filter f l) = filter f l.
Proof.
  induction l as [|x l IH]; cbn; [reflexivity|].
  destruct (f x) eqn:E; cbn; [rewrite E, IH|]; auto.
Qed.

Lemma exec_update uuid c cents s id d :
  Db.exec uuid (Db.UpdateInvoice c cents s id) d
  = ([], Db.mk (updatedRows c cents s id (Db.invoices d)) (Db.users d)
           (Db.serial d)).
Proof. reflexivity. Qed.

Lemma updatedRows_ids c cents s id rows :
  map Invoices.id (updatedRows c cents s id rows) = map Invoices.id rows
  /\ map Invoices.date (updatedRows c cents s id rows) = map Invoices.date rows.
Proof.
  unfold updatedRows; cbn. rewrite !map_map. split; apply map_ext;
    intros r; destruct (String.eqb (Invoices.id r) id); reflexivity.
Qed.

Lemma updatedRows_in c cents s id rows row :
  In row (updatedRows c cents s id rows) ->
  (Invoices.id row <> id /\ In row rows)
  \/ (Invoices.id row = id /\ Invoices.customer_id row = c
      /\ Invoices.amount row = cents /\ Invoices.status row = s).
Proof.
  unfold updatedRows; cbn. rewrite in_map_iff. intros (r & E & Hin).
  destruct (String.eqb_spec (Invoices.id r) id) as [Hid|Hid]; subst row.
  - right. cbn. auto.
  - left. auto.
Qed.

Lemma updatedRows_other c cents s id rows row :
  Invoices.id row <> id -> In row rows -> In row (updatedRows c cents s id rows).
Proof.
  intros Hid Hin. unfold updatedRows; cbn. apply in_map_iff. exists row.
  apply String.eqb_neq in Hid. now rewrite Hid.
Qed.

Lemma updatedRows_unknown c cents s id rows :
  Forall (fun r => String.eqb (Invoices.id r) id = false) rows ->
  updatedRows c cents s id rows = rows.
Proof.
  unfold updatedRows; cbn.
  induction 1 as [|r l Hr _ IH]; cbn; [reflexivity|]. now rewrite Hr, IH.
Qed.

Lemma updatedRows_twice c cents s id rows :
  updatedRows c cents s id (updatedRows c cents s id rows)
  = updatedRows c cents s id rows.
Proof.
  unfold updatedRows; cbn. rewrite map_map. apply map_ext. intros r.
  destruct (String.eqb (Invoices.id r) id) eqn:E; cbn; now rewrite E.
Qed.

(** The run of [updateInvoice] on a valid form that the database accepts,
    in terms of the form. *)
Lemma updateInvoice_accepted id prevState formData w c s :
  FormData_get "customerId" formData = JsString c ->
  positiveAmount (FormData_get "amount" formData) = true ->
  FormData_get "status" formData = JsString s ->
  isStatus s ->
  hd None (sqlOutcomes w) = None ->
  updateInvoice id prevState formData w
  = (Throw (RedirectError "/dashboard/invoices"),
     afterStatement
       (Db.mk (updatedRows c (Number (FormData_get "amount" formData) * 100)%float
                 s id (Db.invoices (database w)))
          (Db.users (database w)) (Db.serial (database w))) w,
     [Sql (Db.UpdateInvoice c (Number (FormData_get "amount" formData) * 100)%float
             s id);
      RevalidatePath "/dashboard/invoices"; Redirect "/dashboard/invoices"]).
Proof.
  intros Hc Ha Hs Hst Hok.
  rewrite (@updateInvoice_valid id prevState formData w _ _ _
             (invoice_form_valid _ Hc Ha Hs Hst)), Hok.
  reflexivity.
Qed.

(** X5. On a valid form that the database accepts, [updateInvoice] keeps
    the rows of [invoices] in number and order with their identifiers and
    dates; every row of the addressed identifier now holds the form's
    customerId, its amount times 100 and its status; every other row is
    as it was; [users] is untouched. *)
Theorem updateInvoice_rewrites_addressed_rows (id : string) (prevState : State)
    (formData : FormData) (w : World) (c s : string) :
  FormData_get "customerId" formData = JsString c ->
  positiveAmount (FormData_get "amount" formData) = true ->
  FormData_get "status" formData = JsString s ->
  isStatus s ->
  hd None (sqlOutcomes w) = None ->
  let before := Db.invoices (database w) in
  let after := Db.invoices (database (final (updateInvoice id prevState formData w))) in
  map Invoices.id after = map Invoices.id before
  /\ map Invoices.date after = map Invoices.date before
  /\ (forall row,
        In row after -> Invoices.id row = id ->
        Invoices.customer_id row = c
        /\ Invoices.amount row = (Number (FormData_get "amount" formData) * 100)%float
        /\ Invoices.status row = s)
  /\ (forall row, Invoices.id row <> id -> (In row after <-> In row before))
  /\ Db.users (database (final (updateInvoice id prevState formData w)))
     = Db.users (database w).
Proof.
  intros Hc Ha Hs Hst Hok before after. subst after before.
  rewrite (updateInvoice_accepted id prevState _ w Hc Ha Hs Hst Hok).
  cbn [final fst snd afterStatement database Db.invoices Db.users].
  split; [apply updatedRows_ids | split; [apply updatedRows_ids|]].
  split; [|split; [|reflexivity]].
  - intros row Hin Hid.
    destruct (updatedRows_in _ _ _ _ _ _ Hin) as [[N _]|(_ & H)]; [contradiction|].
    exact H.
  - intros row Hid. split.
    + intros Hin.
      destruct (updatedRows_in _ _ _ _ _ _ Hin) as [[_ H]|[N _]];
        [exact H | contradiction].
    + now apply updatedRows_other.
Qed.

Lemma updateInvoice_rewrites_addressed_rows_witness :
  let after :=
    Db.invoices (database (final (updateInvoice "inv-a" noState repricedForm
                                     invoicedWorld))) in
  after = [Invoices.mkRow "inv-a" "c3" 1250%float "paid" "2026-10-01";
           Invoices.mkRow "inv-b" "c2" 500%float "paid" "2026-10-02"]
  /\ map Invoices.id after = ["inv-a"; "inv-b"]
  /\ map Invoices.date after = ["2026-10-01"; "2026-10-02"].
Proof.
  split; [vm_compute; reflexivity|].
  destruct (@updateInvoice_rewrites_addressed_rows "inv-a" noState repricedForm
              invoicedWorld "c3" "paid" eq_refl eq_refl eq_refl
              (or_intror eq_refl) eq_refl) as (Hid & Hdate & _).
  exact (conj Hid Hdate).
Defined.

(** X6. An update that addresses no row is not detected: on a valid form
    that the database accepts, when no row has the identifier, the
    database is unchanged, and the run still marks the list path stale
    and ends in the redirect, as after an update that changed a row. *)
Theorem updateInvoice_unknown_id_silent (id : string) (prevState : State)
    (formData : FormData) (w : World) (c s : string) :
  FormData_get "customerId" formData = JsString c ->
  positiveAmount (FormData_get "amount" formData) = true ->
  FormData_get "status" formData = JsString s ->
  isStatus s ->
  hd None (sqlOutcomes w) = None ->
  hasInvoice id (database w) = false ->
  let r := updateInvoice id prevState formData w in
  database (final r) = database w
  /\ revalidations (effects r) = ["/dashboard/invoices"]
  /\ completion r = Throw (RedirectError "/dashboard/invoices").
Proof.
  intros Hc Ha Hs Hst Hok Hno r. subst r.
  rewrite (updateInvoice_accepted id prevState _ w Hc Ha Hs Hst Hok).
  cbn [final completion effects fst snd afterStatement database revalidations].
  rewrite (@updatedRows_unknown _ _ _ _ _ (@hasInvoice_false_forall _ _ Hno)).
  destruct (database w). repeat split; reflexivity.
Qed.

Lemma updateInvoice_unknown_id_silent_witness :
  let r := updateInvoice "inv-z" noState repricedForm invoicedWorld in
  database (final r) = database invoicedWorld
  /\ revalidations (effects r) = ["/dashboard/invoices"]
  /\ completion r = Throw (RedirectError "/dashboard/invoices").
Proof.
  apply (@updateInvoice_unknown_id_silent "inv-z" noState repricedForm
           invoicedWorld "c3" "paid"); try reflexivity.
  right. reflexivity.
Defined.

(** X7. Submitting the same valid update twice changes nothing more than
    submitting it once: when the database accepts both statements, the
    database after the second run is the database after the first. *)
Theorem updateInvoice_twice (id : string) (prevState : State)
    (formData : FormData) (w : World) (c s : string) :
  FormData_get "customerId" formData = JsString c ->
  positiveAmount (FormData_get "amount" formData) = true ->
  FormData_get "status" formData = JsString s ->
  isStatus s ->
  hd None (sqlOutcomes w) = None ->
  hd None (tl (sqlOutcomes w)) = None ->
  let w1 := final (updateInvoice id prevState formData w) in
  database (final (updateInvoice id prevState formData w1)) = database w1.
Proof.
  intros Hc Ha Hs Hst Hok1 Hok2 w1. subst w1.
  rewrite (updateInvoice_accepted id prevState _ w Hc Ha Hs Hst Hok1).
  cbn [final fst snd].
  match goal with
  | |- context [updateInvoice id prevState formData ?w'] =>
      rewrite (updateInvoice_accepted id prevState formData w' Hc Ha Hs Hst Hok2)
  end.
  cbn [final fst snd afterStatement database Db.invoices Db.users Db.serial].
  now rewrite updatedRows_twice.
Qed.

Lemma updateInvoice_twice_witness :
  let w1 := final (updateInvoice "inv-a" noState repricedForm invoicedWorld) in
  database (final (updateInvoice "inv-a" noState repricedForm w1)) = database w1.
Proof.
  apply (@updateInvoice_twice "inv-a" noState repricedForm invoicedWorld
           "c3" "paid"); try reflexivity.
  right. reflexivity.
Defined.

Lemma deleteInvoice_accepted id w :
  hd None (sqlOutcomes w) = None ->
  deleteInvoice id w
  = (Normal tt,
     afterStatement
       (Db.mk (filter (fun r => negb (String.eqb (Invoices.id r) id))
                 (Db.invoices (database w)))
          (Db.users (database w)) (Db.serial (database w))) w,
     [Sql (Db.DeleteInvoice id); RevalidatePath "/dashboard/invoices"]).
Proof. intros Hok. rewrite deleteInvoice_run, Hok. reflexivity. Qed.

Lemma hasInvoice_after_filter id rows users serial :
  hasInvoice id
    (Db.mk (filter (fun r => negb (String.eqb (Invoices.id r) id)) rows)
       users serial) = false.
Proof.
  unfold hasInvoice; cbn [Db.invoices].
  induction rows as [|r l IH]; cbn; [reflexivity|].
  destruct (String.eqb (Invoices.id r) id) eqn:E; cbn; [|rewrite E]; exact IH.
Qed.

(** X8. When the database accepts the statement, [deleteInvoice] leaves no
    row of the addressed identifier in [invoices]; the rows of the other
    identifiers are exactly those that were there, and [users] is
    untouched. *)
Theorem deleteInvoice_removes_addressed_rows (id : string) (w : World) :
  hd None (sqlOutcomes w) = None ->
  let d := database (final (deleteInvoice id w)) in
  hasInvoice id d = false
  /\ (forall row,
        In row (Db.invoices d)
        <-> In row (Db.invoices (database w)) /\ Invoices.id row <> id)
  /\ Db.users d = Db.users (database w).
Proof.
  intros Hok d. subst d. rewrite (deleteInvoice_accepted id w Hok).
  cbn [final fst snd afterStatement database].
  split; [apply hasInvoice_after_filter | split; [|reflexivity]].
  intros row. cbn [Db.invoices]. rewrite filter_In, negb_true_iff, String.eqb_neq.
  reflexivity.
Qed.

Lemma deleteInvoice_removes_addressed_rows_witness :
  let d := database (final (deleteInvoice "inv-a" invoicedWorld)) in
  hasInvoice "inv-a" d = false
  /\ (forall row,
        In row (Db.invoices d)
        <-> In row (Db.invoices (database invoicedWorld))
            /\ Invoices.id row <> "inv-a")
  /\ Db.users d = Db.users (database invoicedWorld).
Proof.
  apply (deleteInvoice_removes_addressed_rows "inv-a" invoicedWorld).
  reflexivity.
Defined.

(** X9. Deleting is idempotent: once a [DELETE] of an identifier has been
    accepted, a second [deleteInvoice] of that identifier leaves the
    database as the first left it, whether its statement succeeds or
    fails, and completes normally; and deleting an identifier that no row
    has changes nothing. *)
Theorem deleteInvoice_idempotent (id : string) (w : World) :
  (hd None (sqlOutcomes w) = None ->
   let w1 := final (deleteInvoice id w) in
   database (final (deleteInvoice id w1)) = database w1
   /\ completion (deleteInvoice id w1) = Normal tt)
  /\ (hasInvoice id (database w) = false ->
      database (final (deleteInvoice id w)) = database w).
Proof.
  split.
  - intros Hok w1. subst w1. rewrite (deleteInvoice_accepted id w Hok).
    cbn [final fst snd]. rewrite deleteInvoice_run.
    cbn [afterStatement sqlOutcomes].
    destruct (hd None (tl (sqlOutcomes w))); cbn; [split; reflexivity|].
    now rewrite filter_twice.
  - intros Hno. rewrite deleteInvoice_run.
    destruct (hd None (sqlOutcomes w)); cbn; [reflexivity|].
    rewrite filter_keeps_all; [now destruct (database w)|].
    apply hasInvoice_false_forall in Hno.
    eapply Forall_impl; [|exact Hno]. cbn. now intros r ->.
Qed.

Lemma deleteInvoice_idempotent_witness :
  (let w1 := final (deleteInvoice "inv-a" invoicedWorld) in
   database (final (deleteInvoice "inv-a" w1)) = database w1
   /\ completion (deleteInvoice "inv-a" w1) = Normal tt)
  /\ database (final (deleteInvoice "inv-z" invoicedWorld))
     = database invoicedWorld.
Proof.
  split.
  - apply (proj1 (deleteInvoice_idempotent "inv-a" invoicedWorld)). reflexivity.
  - apply (proj2 (deleteInvoice_idempotent "inv-z" invoicedWorld)). reflexivity.
Defined.

(** X10. Creating an invoice and then deleting the row it created gives
    back the [invoices] table: for a valid form, when the database accepts
    both statements and no row already has the identifier the database
    generates, [deleteInvoice] of that identifier after [createInvoice]
    leaves the rows that were there before, and [users] as it was. *)
Theorem create_then_delete_restores (prevState : State) (formData : FormData)
    (w : World) (c s : string) :
  FormData_get "customerId" formData = JsString c ->
  positiveAmount (FormData_get "amount" formData) = true ->
  FormData_get "status" formData = JsString s ->
  isStatus s ->
  hd None (sqlOutcomes w) = None ->
  hd None (tl (sqlOutcomes w)) = None ->
  let newId := uuid_generate_v4 w (Db.serial (database w)) in
  hasInvoice newId (database w) = false ->
  let w1 := final (createInvoice prevState formData w) in
  hasInvoice newId (database w1) = true
  /\ Db.invoices (database (final (deleteInvoice newId w1)))
     = Db.invoices (database w)
  /\ Db.users (database (final (deleteInvoice newId w1)))
     = Db.users (database w).
Proof.
  intros Hc Ha Hs Hst Hok1 Hok2 newId Hfresh w1. subst w1.
  rewrite (@createInvoice_valid prevState formData w _ _ _
             (invoice_form_valid _ Hc Ha Hs Hst)), Hok1.
  cbn [final fst snd afterStatement database Db.exec]. fold newId.
  split.
  - unfold hasInvoice; cbn [Db.invoices]. rewrite existsb_app; cbn.
    now rewrite String.eqb_refl, orb_true_r.
  - match goal with
    | |- context [deleteInvoice newId ?w'] =>
        rewrite (deleteInvoice_accepted newId w' Hok2)
    end.
    cbn [final fst snd afterStatement database Db.invoices Db.users].
    split; [|reflexivity].
    rewrite filter_app; cbn. rewrite String.eqb_refl; cbn.
    rewrite app_nil_r. apply filter_keeps_all.
    apply hasInvoice_false_forall in Hfresh.
    eapply Forall_impl; [|exact Hfresh]. cbn. now intros r ->.
Qed.

Lemma create_then_delete_restores_witness :
  let w1 := final (createInvoice noState validInvoiceForm invoicedWorld) in
  hasInvoice "id-0001" (database w1) = true
  /\ Db.invoices (database (final (deleteInvoice "id-0001" w1)))
     = Db.invoices (database invoicedWorld)
  /\ Db.users (database (final (deleteInvoice "id-0001" w1)))
     = Db.users (database invoicedWorld).
Proof.
  apply (@create_then_delete_restores noState validInvoiceForm invoicedWorld
           "c1" "paid"); try reflexivity.
  right. reflexivity.
Defined.

(** ** Registration, further *)

(** The form of a registration validates exactly when the three fields
    are strings that pass their checks. *)
Lemma register_form_valid_inv formData name email password :
  RegisterFormSchema.safeParse (registerInput formData)
  = Zod.success (RegisterFormSchema.mkData name email password) ->
  FormData_get "name" formData = JsString name
  /\ FormData_get "email" formData = JsString email
  /\ FormData_get "password" formData = JsString password
  /\ (1 <= String.length name)%nat
  /\ Zod.emailRegex email = true
  /\ (6 <= String.length password)%nat.
Proof.
  unfold RegisterFormSchema.safeParse, registerInput;
    cbn [RegisterFormSchema.in_name RegisterFormSchema.in_email
         RegisterFormSchema.in_password].
  unfold Zod.parseKey.
  unfold RegisterFormSchema.name, RegisterFormSchema.password.
  rewrite !parse_min, parse_email. intros H.
  destruct (FormData_get "name" formData) as [|n|f1];
    [destruct (match FormData_get "email" formData with JsString _ => _ | _ => _ end),
       (match FormData_get "password" formData with JsString _ => _ | _ => _ end);
     discriminate H | | ].
  2: destruct (match FormData_get "email" formData with JsString _ => _ | _ => _ end),
       (match FormData_get "password" formData with JsString _ => _ | _ => _ end);
     discriminate H.
  destruct (Nat.ltb_spec (String.length n) 1) as [Ln|Ln].
  1: destruct (match FormData_get "email" formData with JsString _ => _ | _ => _ end),
       (match FormData_get "password" formData with JsString _ => _ | _ => _ end);
     discriminate H.
  destruct (FormData_get "email" formData) as [|e|f2].
  1, 3: destruct (match FormData_get "password" formData with JsString _ => _ | _ => _ end);
     discriminate H.
  destruct (Zod.emailRegex e) eqn:Ee.
  2: destruct (match FormData_get "password" formData with JsString _ => _ | _ => _ end);
     discriminate H.
  destruct (FormData_get "password" formData) as [|p|f3]; try discriminate H.
  destruct (Nat.ltb_spec (String.length p) 6) as [Lp|Lp]; [discriminate H|].
  injection H as <- <- <-. repeat split; auto.
Qed.

(** X11. [register] reaches the database exactly when its form is valid:
    the name a non-empty string, the address a string matching the
    pattern, the password a string of six code units or more. On every
    other form it returns its validation message, with no effect and the
    world unchanged. *)
Theorem register_reaches_database_iff_valid (prevState : option string)
    (formData : FormData) (w : World) :
  let valid :=
    exists name email password,
      FormData_get "name" formData = JsString name
      /\ FormData_get "email" formData = JsString email
      /\ FormData_get "password" formData = JsString password
      /\ (1 <= String.length name)%nat
      /\ Zod.emailRegex email = true
      /\ (6 <= String.length password)%nat in
  (statements (effects (register prevState formData w)) <> [] <-> valid)
  /\ (~ valid ->
      register prevState formData w
      = (Normal "Missing Fields. Failed to Register.", w, [])).
Proof.
  intros valid.
  destruct (RegisterFormSchema.safeParse (registerInput formData))
    as [[n e p]|error] eqn:E.
  - assert (V : valid).
    { destruct (register_form_valid_inv _ E) as (? & ? & ? & ? & ? & ?).
      exists n, e, p. repeat split; assumption. }
    split; [|intros NV; contradiction].
    rewrite (@register_valid prevState formData w n e p E).
    cbn [afterStatement sqlOutcomes].
    destruct (hd None (sqlOutcomes w)), (emailTaken e (database w)),
      (hd None (tl (sqlOutcomes w))); cbn [effects snd statements];
      split; intros; try assumption; discriminate.
  - assert (NV : ~ valid).
    { intros (n & e & p & Hn & He & Hp & Ln & Le & Lp).
      rewrite (register_form_valid _ Hn He Hp Ln Le Lp) in E. discriminate E. }
    rewrite (@register_invalid prevState formData w error E).
    split; [|reflexivity]. cbn [effects snd statements].
    split; intros H; [now elim H | contradiction].
Qed.

Lemma register_reaches_database_iff_valid_witness :
  statements (effects (register None freshForm sampleWorld)) <> []
  /\ register None
       [("name", JsString ""); ("email", JsString "bob@example.com");
        ("password", JsString "123456")] sampleWorld
     = (Normal "Missing Fields. Failed to Register.", sampleWorld, []).
Proof.
  split.
  - apply (proj1 (register_reaches_database_iff_valid None freshForm sampleWorld)).
    exists "Bob", "bob@example.com", "123456".
    repeat split; try reflexivity; simpl; lia.
  - apply (proj2 (register_reaches_database_iff_valid None _ sampleWorld)).
    intros (n & e & p & Hn & _ & _ & Ln & _).
    injection Hn as <-. simpl in Ln. lia.
Defined.



(** X13. On a valid form, a statement that the database rejects makes
    [register] return [Database Error: Failed to register.]: the error is
    written to the console with the label [Registration Error:], the
    database is as before and there is no redirect. When the lookup is
    the statement that fails, the password is not hashed and no insertion
    is sent; when the insertion fails, it was sent after the hashing. *)
Theorem register_database_failure (prevState : option string)
    (formData : FormData) (w : World) (name email password : string)
    (e : JsError) :
  FormData_get "name" formData = JsString name ->
  FormData_get "email" formData = JsString email ->
  FormData_get "password" formData = JsString password ->
  (1 <= String.length name)%nat ->
  Zod.emailRegex email = true ->
  (6 <= String.length password)%nat ->
  let r := register prevState formData w in
  (hd None (sqlOutcomes w) = Some e ->
   completion r = Normal "Database Error: Failed to register."
   /\ effects r
      = [Sql (Db.SelectUserId email); ConsoleError "Registration Error:" e]
   /\ database (final r) = database w)
  /\ (hd None (sqlOutcomes w) = None ->
      emailTaken email (database w) = false ->
      hd None (tl (sqlOutcomes w)) = Some e ->
      completion r = Normal "Database Error: Failed to register."
      /\ effects r
         = [Sql (Db.SelectUserId email); BcryptHash password 10;
            Sql (Db.InsertUser name email (bcrypt w password 10));
            ConsoleError "Registration Error:" e]
      /\ database (final r) = database w).
Proof.
  intros Hn He Hp Ln Le Lp r. subst r.
  rewrite (@register_valid prevState formData w _ _ _
             (register_form_valid _ Hn He Hp Ln Le Lp)).
  cbn [afterStatement sqlOutcomes]. split.
  - intros ->. repeat split; reflexivity.
  - intros -> -> ->. repeat split; reflexivity.
Qed.

Lemma register_database_failure_witness :
  (completion (register None freshForm failingWorld)
   = Normal "Database Error: Failed to register."
   /\ effects (register None freshForm failingWorld)
      = [Sql (Db.SelectUserId "bob@example.com");
         ConsoleError "Registration Error:" (PostgresError "connection refused")]
   /\ database (final (register None freshForm failingWorld))
      = database failingWorld)
  /\ (completion (register None freshForm insertFailingWorld)
      = Normal "Database Error: Failed to register."
      /\ effects (register None freshForm insertFailingWorld)
         = [Sql (Db.SelectUserId "bob@example.com"); BcryptHash "123456" 10;
            Sql (Db.InsertUser "Bob" "bob@example.com" "$2a$10$123456");
            ConsoleError "Registration Error:" (PostgresError "disk full")]
      /\ database (final (register None freshForm insertFailingWorld))
         = database insertFailingWorld).
Proof.
  split.
  - apply (proj1 (@register_database_failure None freshForm failingWorld
                    "Bob" "bob@example.com" "123456"
                    (PostgresError "connection refused")
                    eq_refl eq_refl eq_refl ltac:(simpl; lia) eq_refl
                    ltac:(simpl; lia))).
    reflexivity.
  - apply (proj2 (@register_database_failure None freshForm insertFailingWorld
                    "Bob" "bob@example.com" "123456"
                    (PostgresError "disk full")
                    eq_refl eq_refl eq_refl ltac:(simpl; lia) eq_refl
                    ltac:(simpl; lia))); reflexivity.
Defined.

Lemma emailTaken_app email rows row users serial :
  emailTaken email (Db.mk rows (users ++ [row]) serial)
  = emailTaken email (Db.mk rows users serial)
    || String.eqb (Users.email row) email.
Proof.
  unfold emailTaken; cbn [Db.users]. rewrite existsb_app. cbn.
  now rewrite orb_false_r.
Qed.

(** X14. A registration that succeeded closes its address: for a valid
    form with a fresh address, when the database accepts the lookup and
    the insertion, the address is in [users] afterwards, and submitting
    the same form again, when the database answers the lookup, returns
    [User with this email already exists.] and leaves [users] with the
    single row the first run added. *)
Theorem register_twice (prevState : option string) (formData : FormData)
    (w : World) (name email password : string) :
  FormData_get "name" formData = JsString name ->
  FormData_get "email" formData = JsString email ->
  FormData_get "password" formData = JsString password ->
  (1 <= String.length name)%nat ->
  Zod.emailRegex email = true ->
  (6 <= String.length password)%nat ->
  emailTaken email (database w) = false ->
  hd None (sqlOutcomes w) = None ->
  hd None (tl (sqlOutcomes w)) = None ->
  hd None (tl (tl (sqlOutcomes w))) = None ->
  let w1 := final (register prevState formData w) in
  let r2 := register prevState formData w1 in
  emailTaken email (database w1) = true
  /\ completion r2 = Normal "User with this email already exists."
  /\ database (final r2) = database w1
  /\ Db.users (database (final r2))
     = (Db.users (database w)
        ++ [Users.mkRow (uuid_generate_v4 w (Db.serial (database w))) name email
              (bcrypt w password 10)])%list.
Proof.
  intros Hn He Hp Ln Le Lp Hfresh Hok1 Hok2 Hok3 w1 r2.
  pose proof (register_form_valid _ Hn He Hp Ln Le Lp) as V.
  assert (E1 : w1
               = afterStatement
                   (Db.mk (Db.invoices (database w))
                      (Db.users (database w)
                       ++ [Users.mkRow (uuid_generate_v4 w (Db.serial (database w)))
                             name email (bcrypt w password 10)])%list
                      (S (Db.serial (database w))))
                   (afterStatement (database w) w)).
  { subst w1. rewrite (@register_valid prevState formData w _ _ _ V).
    cbn [afterStatement sqlOutcomes]. now rewrite Hok1, Hfresh, Hok2. }
  assert (T : emailTaken email (database w1) = true).
  { rewrite E1. cbn [afterStatement database].
    rewrite emailTaken_app. cbn [Users.email].
    now rewrite String.eqb_refl, orb_true_r. }
  split; [exact T|]. subst r2.
  rewrite (@register_valid prevState formData w1 _ _ _ V), T.
  assert (Hok : hd None (sqlOutcomes w1) = None) by (rewrite E1; exact Hok3).
  rewrite Hok. cbn [completion final fst snd afterStatement database].
  split; [reflexivity | split; [reflexivity|]].
  rewrite E1. reflexivity.
Qed.

Lemma register_twice_witness :
  let w1 := final (register None freshForm sampleWorld) in
  let r2 := register None freshForm w1 in
  emailTaken "bob@example.com" (database w1) = true
  /\ completion r2 = Normal "User with this email already exists."
  /\ database (final r2) = database w1
  /\ Db.users (database (final r2))
     = [Users.mkRow "u-0" "Ann" "ann@example.com" "$2a$10$digest";
        Users.mkRow "id-0001" "Bob" "bob@example.com" "$2a$10$123456"].
Proof.
  apply (@register_twice None freshForm sampleWorld "Bob" "bob@example.com"
           "123456"); try reflexivity; simpl; lia.
Defined.

(** ** What the actions leave alone *)

(** X15. Whatever the form, the world and the outcomes of the statements:
    [createInvoice] only ever appends to [invoices], at most one row, and
    [register] only ever appends to [users], at most one row, so that no
    existing row is changed or removed by them; the invoice actions never
    change [users], [register] never changes [invoices], and
    [authenticate] leaves the whole world as it was and sends no
    statement. *)
Theorem actions_frame (id : string) (prevState : State)
    (prevMessage : option string) (formData : FormData) (w : World) :
  (exists added,
     Db.invoices (database (final (createInvoice prevState formData w)))
     = (Db.invoices (database w) ++ added)%list
     /\ (List.length added <= 1)%nat)
  /\ (exists added,
        Db.users (database (final (register prevMessage formData w)))
        = (Db.users (database w) ++ added)%list
        /\ (List.length added <= 1)%nat)
  /\ Db.users (database (final (createInvoice prevState formData w)))
     = Db.users (database w)
  /\ Db.users (database (final (updateInvoice id prevState formData w)))
     = Db.users (database w)
  /\ Db.users (database (final (deleteInvoice id w))) = Db.users (database w)
  /\ Db.invoices (database (final (register prevMessage formData w)))
     = Db.invoices (database w)
  /\ final (authenticate prevMessage formData w) = w
  /\ statements (effects (authenticate prevMessage formData w)) = [].
Proof.
  assert (C : (exists added,
                 Db.invoices (database (final (createInvoice prevState formData w)))
                 = (Db.invoices (database w) ++ added)%list
                 /\ (List.length added <= 1)%nat)
              /\ Db.users (database (final (createInvoice prevState formData w)))
                 = Db.users (database w)).
  { destruct (invoice_form_cases formData) as [[[c a s] E]|F].
    - rewrite (@createInvoice_valid prevState formData w c a s E).
      destruct (hd None (sqlOutcomes w)); cbn; split; try reflexivity.
      + exists []. rewrite app_nil_r. auto.
      + eexists [_]. auto.
    - rewrite (createInvoice_rejects prevState formData w F). cbn.
      split; [exists []; rewrite app_nil_r; auto | reflexivity]. }
  assert (R : (exists added,
                 Db.users (database (final (register prevMessage formData w)))
                 = (Db.users (database w) ++ added)%list
                 /\ (List.length added <= 1)%nat)
              /\ Db.invoices (database (final (register prevMessage formData w)))
                 = Db.invoices (database w)).
  { destruct (RegisterFormSchema.safeParse (registerInput formData))
      as [[n e p]|error] eqn:E.
    - rewrite (@register_valid prevMessage formData w n e p E).
      cbn [afterStatement sqlOutcomes].
      destruct (hd None (sqlOutcomes w)), (emailTaken e (database w)),
        (hd None (tl (sqlOutcomes w))); cbn; split; try reflexivity;
        try (exists []; rewrite app_nil_r; now auto).
      eexists [_]. auto.
    - rewrite (@register_invalid prevMessage formData w error E). cbn.
      split; [exists []; rewrite app_nil_r; auto | reflexivity]. }
  destruct C as [C1 C2], R as [R1 R2].
  split; [exact C1 | split; [exact R1 | split; [exact C2|]]].
  split; [|split; [|split; [exact R2|]]].
  - destruct (invoice_form_cases formData) as [[[c a s] E]|F].
    + rewrite (@updateInvoice_valid id prevState formData w c a s E).
      destruct (hd None (sqlOutcomes w)); reflexivity.
    + now rewrite (updateInvoice_rejects prevState formData w F id).
  - rewrite deleteInvoice_run. destruct (hd None (sqlOutcomes w)); reflexivity.
  - unfold authenticate, tryCatch, bind, signIn, final, effects.
    destruct (signInOutcome w) as [[m|type|u|m]|]; cbn; auto.
    destruct (String.eqb type "CredentialsSignin"); cbn; auto.
Qed.

(** X16. [authenticate] hands the submitted form, as it is, to [signIn]
    with the provider [credentials], exactly once and whatever the
    outcome; when [signIn] does not throw it returns [undefined]. *)
Theorem authenticate_delegates (prevState : option string)
    (formData : FormData) (w : World) :
  effects (authenticate prevState formData w) = [SignIn "credentials" formData]
  /\ (signInOutcome w = None ->
      completion (authenticate prevState formData w) = Normal None).
Proof.
  unfold authenticate, tryCatch, bind, signIn, completion, effects.
  destruct (signInOutcome w) as [[m|type|u|m]|]; cbn; split;
    try reflexivity; try discriminate.
  all: destruct (String.eqb type "CredentialsSignin"); cbn;
    try reflexivity; discriminate.
Qed.

Lemma authenticate_delegates_witness :
  effects (authenticate None takenForm sampleWorld)
  = [SignIn "credentials" takenForm]
  /\ completion (authenticate None takenForm sampleWorld) = Normal None.
Proof.
  destruct (authenticate_delegates None takenForm sampleWorld) as [H1 H2].
  exact (conj H1 (H2 eq_refl)).
Defined.

(** X17. The schema puts no upper bound on the amount: a form whose
    amount coerces to [Infinity] (the literal [Infinity], or a decimal
    too large for a binary64 number), with a string customerId and a
    valid status, validates, and both actions send their statement with
    an infinite amount. *)
Theorem invoice_infinite_amount_accepted (id : string) (prevState : State)
    (formData : FormData) (w : World) (c s : string) :
  FormData_get "customerId" formData = JsString c ->
  Number (FormData_get "amount" formData) = infinity ->
  FormData_get "status" formData = JsString s ->
  isStatus s ->
  statements (effects (createInvoice prevState formData w))
  = [Db.InsertInvoice c infinity s (JsDate.isoDate (now w))]
  /\ statements (effects (updateInvoice id prevState formData w))
     = [Db.UpdateInvoice c infinity s id].
Proof.
  intros Hc Ha Hs Hst.
  assert (P : positiveAmount (FormData_get "amount" formData) = true)
    by (unfold positiveAmount; rewrite Ha; reflexivity).
  pose proof (invoice_form_valid _ Hc P Hs Hst) as V. rewrite Ha in V.
  rewrite (@createInvoice_valid prevState formData w _ _ _ V).
  rewrite (@updateInvoice_valid id prevState formData w _ _ _ V).
  change (infinity * 100)%float with infinity.
  destruct (hd None (sqlOutcomes w)); split; reflexivity.
Qed.

Lemma invoice_infinite_amount_accepted_witness :
  statements
    (effects (createInvoice noState
                [("customerId", JsString "c1"); ("amount", JsString "1e400");
                 ("status", JsString "pending")] sampleWorld))
  = [Db.InsertInvoice "c1" infinity "pending" "2026-11-02"]
  /\ statements
       (effects (updateInvoice "inv-a" noState
                   [("customerId", JsString "c1"); ("amount", JsString "1e400");
                    ("status", JsString "pending")] sampleWorld))
     = [Db.UpdateInvoice "c1" infinity "pending" "inv-a"].
Proof.
  apply (@invoice_infinite_amount_accepted "inv-a" noState
           [("customerId", JsString "c1"); ("amount", JsString "1e400");
            ("status", JsString "pending")] sampleWorld "c1" "pending");
    try reflexivity.
  left. reflexivity.
Defined.

(** ** The shape of the date stamp *)

Lemma civilFromDays_month_day day :
  let '(y, m, d) := JsDate.civilFromDays day in
  (1 <= m <= 12 /\ 1 <= d <= 31)%Z.
Proof.
  unfold JsDate.civilFromDays.
  set (z := (day + 719468)%Z). set (era := (z / 146097)%Z).
  set (doe := (z - era * 146097)%Z).
  assert (Hdoe : (0 <= doe <= 146096)%Z)
    by (subst doe era; Z.div_mod_to_equations; lia).
  clearbody doe. clear z era.
  set (yoe := ((doe - doe / 1460 + doe / 36524 - doe / 146096) / 365)%Z).
  set (doy := (doe - (365 * yoe + yoe / 4 - yoe / 100))%Z).
  assert (Hdoy : (0 <= doy <= 365)%Z)
    by (subst doy yoe; Z.div_mod_to_equations; lia).
  clearbody doy.
  set (mp := ((5 * doy + 2) / 153)%Z).
  assert (Hmp : (0 <= mp <= 11)%Z) by (subst mp; Z.div_mod_to_equations; lia).
  destruct (mp <? 10)%Z eqn:E; [apply Z.ltb_lt in E | apply Z.ltb_ge in E];
    subst mp; split; Z.div_mod_to_equations; lia.
Qed.

(** The days of the years 0 to 9999 have a year of four digits. *)
Lemma civilFromDays_year day :
  (-719528 <= day <= 2932896)%Z ->
  let '(y, m, d) := JsDate.civilFromDays day in (0 <= y <= 9999)%Z.
Proof.
  intros Hd. unfold JsDate.civilFromDays.
  set (z := (day + 719468)%Z). set (era := (z / 146097)%Z).
  set (doe := (z - era * 146097)%Z).
  assert (Hera : (-1 <= era <= 24)%Z)
    by (subst era z; Z.div_mod_to_equations; lia).
  assert (Hdoe : (0 <= doe <= 146096)%Z)
    by (subst doe era; Z.div_mod_to_equations; lia).
  assert (Hlow : era = (-1)%Z -> (146037 <= doe)%Z)
    by (subst doe era z; Z.div_mod_to_equations; lia).
  assert (Hhigh : era = 24%Z -> (doe <= 146036)%Z)
    by (subst doe era z; Z.div_mod_to_equations; lia).
  clearbody doe era. clear z.
  set (yoe := ((doe - doe / 1460 + doe / 36524 - doe / 146096) / 365)%Z).
  assert (Hyoe : (0 <= yoe <= 399)%Z)
    by (subst yoe; Z.div_mod_to_equations; lia).
  set (doy := (doe - (365 * yoe + yoe / 4 - yoe / 100))%Z).
  assert (Hdoy : (0 <= doy <= 365)%Z)
    by (subst doy yoe; Z.div_mod_to_equations; lia).
  assert (Hlow' : era = (-1)%Z -> yoe = 399%Z /\ (306 <= doy)%Z)
    by (intros He; specialize (Hlow He); subst doy yoe;
        Z.div_mod_to_equations; lia).
  assert (Hhigh' : era = 24%Z -> (yoe < 399)%Z \/ (doy <= 305)%Z)
    by (intros He; specialize (Hhigh He); subst doy yoe;
        Z.div_mod_to_equations; lia).
  clearbody doy yoe.
  set (mp := ((5 * doy + 2) / 153)%Z).
  assert (Hmp : (0 <= mp <= 11)%Z) by (subst mp; Z.div_mod_to_equations; lia).
  assert (Hmp1 : (306 <= doy)%Z -> (10 <= mp)%Z)
    by (subst mp; Z.div_mod_to_equations; lia).
  assert (Hmp2 : (doy <= 305)%Z -> (mp < 10)%Z)
    by (subst mp; Z.div_mod_to_equations; lia).
  clearbody mp.
  destruct (mp <? 10)%Z eqn:E; [apply Z.ltb_lt in E | apply Z.ltb_ge in E].
  - destruct (mp + 3 <=? 2)%Z eqn:E2; [apply Z.leb_le in E2|]; lia.
  - destruct (mp - 9 <=? 2)%Z eqn:E2;
      [apply Z.leb_le in E2 | apply Z.leb_gt in E2]; lia.
Qed.

Lemma length_app_string (a b : string) :
  String.length (a ++ b) = (String.length a + String.length b)%nat.
Proof. induction a as [|x a IH]; cbn; [reflexivity | now rewrite IH]. Qed.

Lemma fixedDigits_length width v : String.length (JsDate.fixedDigits width v) = width.
Proof.
  revert v. induction width as [|n IH]; intros v; cbn [JsDate.fixedDigits];
    [reflexivity|].
  rewrite length_app_string, IH. cbn. lia.
Qed.

(** X18. While the clock is within the years 0 to 9999, the date that
    [createInvoice] sends with a valid form is ten code units long, of the
    shape [YYYY-MM-DD]: four digits of a year, two of a month between 1
    and 12 and two of a day between 1 and 31, each padded with zeros. *)
Theorem createInvoice_date_shape (prevState : State) (formData : FormData)
    (w : World) (c s : string) :
  FormData_get "customerId" formData = JsString c ->
  positiveAmount (FormData_get "amount" formData) = true ->
  FormData_get "status" formData = JsString s ->
  isStatus s ->
  (-62167219200000 <= now w <= 253402300799999)%Z ->
  exists y m d,
    (0 <= y <= 9999 /\ 1 <= m <= 12 /\ 1 <= d <= 31)%Z
    /\ statements (effects (createInvoice prevState formData w))
       = [Db.InsertInvoice c (Number (FormData_get "amount" formData) * 100)%float s
            (JsDate.fixedDigits 4 y ++ "-" ++ JsDate.fixedDigits 2 m ++ "-"
             ++ JsDate.fixedDigits 2 d)]
    /\ String.length
         (JsDate.fixedDigits 4 y ++ "-" ++ JsDate.fixedDigits 2 m ++ "-"
          ++ JsDate.fixedDigits 2 d) = 10%nat.
Proof.
  intros Hc Ha Hs Hst Hnow.
  rewrite (@createInvoice_valid prevState formData w _ _ _
             (invoice_form_valid _ Hc Ha Hs Hst)).
  assert (Hday : (-719528 <= now w / JsDate.msPerDay <= 2932896)%Z)
    by (unfold JsDate.msPerDay; Z.div_mod_to_equations; lia).
  pose proof (@civilFromDays_year _ Hday) as Hy.
  pose proof (civilFromDays_month_day (now w / JsDate.msPerDay)) as Hmd.
  unfold JsDate.isoDate.
  destruct (JsDate.civilFromDays (now w / JsDate.msPerDay)) as [[y m] d].
  exists y, m, d. split; [tauto|]. split.
  - unfold JsDate.yearString.
    destruct Hy as [Hy0 Hy1]. apply Z.leb_le in Hy0, Hy1. rewrite Hy0, Hy1.
    destruct (hd None (sqlOutcomes w)); reflexivity.
  - rewrite !length_app_string, !fixedDigits_length. reflexivity.
Qed.

Lemma createInvoice_date_shape_witness :
  exists y m d,
    (0 <= y <= 9999 /\ 1 <= m <= 12 /\ 1 <= d <= 31)%Z
    /\ statements (effects (createInvoice noState validInvoiceForm sampleWorld))
       = [Db.InsertInvoice "c1"
            (Number (FormData_get "amount" validInvoiceForm) * 100)%float "paid"
            (JsDate.fixedDigits 4 y ++ "-" ++ JsDate.fixedDigits 2 m ++ "-"
             ++ JsDate.fixedDigits 2 d)]
    /\ String.length
         (JsDate.fixedDigits 4 y ++ "-" ++ JsDate.fixedDigits 2 m ++ "-"
          ++ JsDate.fixedDigits 2 d) = 10%nat.
Proof.
  apply (@createInvoice_date_shape noState validInvoiceForm sampleWorld
           "c1" "paid"); try reflexivity.
  - right. reflexivity.
  - cbn. lia.
Defined.

(** ** An invariant of the table, absent fields, and resubmission *)

(** X19. The invoice actions keep the status column within its two
    values: if every row of [invoices] has the status [pending] or [paid],
    this is still so after [createInvoice], [updateInvoice] or
    [deleteInvoice], whatever the form, the identifier and the outcome of
    the statement. *)
Theorem invoice_status_invariant (id : string) (prevState : State)
    (formData : FormData) (w : World) :
  Forall (fun r => isStatus (Invoices.status r)) (Db.invoices (database w)) ->
  Forall (fun r => isStatus (Invoices.status r))
    (Db.invoices (database (final (createInvoice prevState formData w))))
  /\ Forall (fun r => isStatus (Invoices.status r))
       (Db.invoices (database (final (updateInvoice id prevState formData w))))
  /\ Forall (fun r => isStatus (Invoices.status r))
       (Db.invoices (database (final (deleteInvoice id w)))).
Proof.
  intros Hinv. split; [|split].
  - destruct (invoice_form_cases formData) as [[[c a s] E]|F].
    + destruct (invoice_form_valid_inv _ E) as (_ & _ & _ & _ & Hst).
      rewrite (@createInvoice_valid prevState formData w c a s E).
      destruct (hd None (sqlOutcomes w)); cbn; [assumption|].
      apply Forall_app. split; [assumption|]. constructor; [exact Hst | constructor].
    + now rewrite (createInvoice_rejects prevState formData w F).
  - destruct (invoice_form_cases formData) as [[[c a s] E]|F].
    + destruct (invoice_form_valid_inv _ E) as (_ & _ & _ & _ & Hst).
      rewrite (@updateInvoice_valid id prevState formData w c a s E).
      destruct (hd None (sqlOutcomes w)); cbn; [assumption|].
      apply Forall_forall. intros row Hin. apply in_map_iff in Hin.
      destruct Hin as (r & <- & Hr).
      destruct (String.eqb (Invoices.id r) id); [exact Hst|].
      rewrite Forall_forall in Hinv. now apply Hinv.
    + now rewrite (updateInvoice_rejects prevState formData w F id).
  - rewrite deleteInvoice_run.
    destruct (hd None (sqlOutcomes w)); cbn; [assumption|].
    apply Forall_forall. intros row Hin. apply filter_In in Hin.
    rewrite Forall_forall in Hinv. now apply Hinv.
Qed.

Lemma invoice_status_invariant_witness :
  Forall (fun r => isStatus (Invoices.status r))
    (Db.invoices (database (final (createInvoice noState repricedForm invoicedWorld))))
  /\ Forall (fun r => isStatus (Invoices.status r))
       (Db.invoices (database (final (updateInvoice "inv-a" noState repricedForm
                                        invoicedWorld))))
  /\ Forall (fun r => isStatus (Invoices.status r))
       (Db.invoices (database (final (deleteInvoice "inv-a" invoicedWorld)))).
Proof.
  apply (invoice_status_invariant "inv-a" noState repricedForm invoicedWorld).
  constructor; [left; reflexivity|].
  constructor; [right; reflexivity | constructor].
Defined.

(** X20. A field that the submission lacks is reported with the message
    the schema gives it: without a customerId, [Please select a
    customer.]; without a status, [Please select an invoice status.];
    without an amount, or with an empty one, the amount counts as zero and
    the message is [Please enter an amount greater than $0.] In each case
    both actions answer with the field errors and do nothing else. *)
Theorem invoice_absent_fields (id : string) (prevState : State)
    (formData : FormData) (w : World) :
  FormData_get "customerId" formData = JsNull
  \/ FormData_get "amount" formData = JsNull
  \/ FormData_get "amount" formData = JsString ""
  \/ FormData_get "status" formData = JsNull ->
  exists fe,
    createInvoice prevState formData w
    = (Normal (mkState (Some fe) (Some "Missing Fields. Failed to create Invoice.")),
       w, [])
    /\ updateInvoice id prevState formData w
       = (Normal (mkState (Some fe) (Some "Missing Fields. Failed to update Invoice.")),
          w, [])
    /\ (FormData_get "customerId" formData = JsNull ->
        err_customerId fe = Some ["Please select a customer."])
    /\ (FormData_get "amount" formData = JsNull
        \/ FormData_get "amount" formData = JsString "" ->
        err_amount fe = Some ["Please enter an amount greater than $0."])
    /\ (FormData_get "status" formData = JsNull ->
        err_status fe = Some ["Please select an invoice status."]).
Proof.
  intros H.
  assert (F : Zod.issuesOf (Zod.parseKey "customerId" FormSchema.customerId
                              (FormData_get "customerId" formData)) <> []
              \/ Zod.issuesOf (Zod.parseKey "amount" FormSchema.amount
                                 (FormData_get "amount" formData)) <> []
              \/ Zod.issuesOf (Zod.parseKey "status" FormSchema.status
                                 (FormData_get "status" formData)) <> []).
  { destruct H as [E|[E|[E|E]]]; rewrite E;
      [left | right; left | right; left | right; right]; discriminate. }
  eexists. split; [apply (createInvoice_rejects prevState formData w F)|].
  split; [apply (updateInvoice_rejects prevState formData w F)|].
  cbn [err_customerId err_amount err_status].
  split; [|split].
  - intros ->. reflexivity.
  - intros [-> | ->]; reflexivity.
  - intros ->. reflexivity.
Qed.

Lemma invoice_absent_fields_witness :
  exists fe,
    createInvoice noState [] sampleWorld
    = (Normal (mkState (Some fe) (Some "Missing Fields. Failed to create Invoice.")),
       sampleWorld, [])
    /\ err_customerId fe = Some ["Please select a customer."]
    /\ err_amount fe = Some ["Please enter an amount greater than $0."]
    /\ err_status fe = Some ["Please select an invoice status."].
Proof.
  destruct (@invoice_absent_fields "inv-a" noState [] sampleWorld
              (or_introl eq_refl)) as (fe & Hc & _ & H1 & H2 & H3).
  exists fe. split; [exact Hc|].
  split; [exact (H1 eq_refl) | split; [exact (H2 (or_introl eq_refl))|]].
  exact (H3 eq_refl).
Defined.


